(** * Gapminder dashboard (APP.py): figure builders over a tabular dataset

    A shallow embedding of the data pipeline of [APP.py]: the module
    globals built at import time ([df], [table_df], [continents],
    [years], the two dictionaries), the theme helper, the placeholder
    figure, the ranked-bar builder and its three callers, the table
    builder, the choropleth builder, and the three figure callbacks.

    Modelling conventions.
    - A pandas frame with the gapminder schema is a list of typed rows
      ([Row]); the renamed frame [table_df] is a [Frame], a list of
      headers each bound to the column it shows.
    - A finite float is the rational number it denotes ([Q]); the dataset
      has no missing values, so NaN does not occur.  Python integers are
      [Z].
    - A plotly figure is the description the source builds: which plot
      constructor was called on which frame with which column arguments,
      the annotations added, and the layout fields set.  Rendering is not
      modelled.
    - Module globals live in a record [Globals] threaded through a small
      state monad [Py], so that "the dataset is not changed by a call" is
      a statement about the final state. *)

From Stdlib Require Import QArith.
From stdpp Require Import gmap strings list sorting pretty.

Local Open Scope Z_scope.
Local Open Scope string_scope.

(** ** Data model *)

(** One record of [px.data.gapminder()], columns in the dataset's order
    (APP.py line 13). *)
Record Row := mkRow {
  country : string;
  continent : string;
  year : Z;
  lifeExp : Q;
  pop : Z;
  gdpPercap : Q;
  iso_alpha : string;
  iso_num : Z
}.

(** A cell of a frame. *)
Inductive value :=
| VStr (s : string)
| VInt (z : Z)
| VFloat (q : Q).

(** The eight columns of the dataset. *)
Inductive column :=
| c_country | c_continent | c_year | c_lifeExp
| c_pop | c_gdpPercap | c_iso_alpha | c_iso_num.

Definition col_name (c : column) : string :=
  match c with
  | c_country => "country"
  | c_continent => "continent"
  | c_year => "year"
  | c_lifeExp => "lifeExp"
  | c_pop => "pop"
  | c_gdpPercap => "gdpPercap"
  | c_iso_alpha => "iso_alpha"
  | c_iso_num => "iso_num"
  end.

(** [df.columns], in order. *)
Definition df_columns : list column :=
  [c_country; c_continent; c_year; c_lifeExp; c_pop; c_gdpPercap; c_iso_alpha; c_iso_num].

(** [row[c]]. *)
Definition cell (c : column) (r : Row) : value :=
  match c with
  | c_country => VStr (country r)
  | c_continent => VStr (continent r)
  | c_year => VInt (year r)
  | c_lifeExp => VFloat (lifeExp r)
  | c_pop => VInt (pop r)
  | c_gdpPercap => VFloat (gdpPercap r)
  | c_iso_alpha => VStr (iso_alpha r)
  | c_iso_num => VInt (iso_num r)
  end.

(** The three numeric columns a ranked bar chart or the map can show
    (the values of [VAR_MAP], the [y_col] arguments of [make_bar]). *)
Inductive metric := m_pop | m_gdpPercap | m_lifeExp.

Definition metric_col (m : metric) : column :=
  match m with
  | m_pop => c_pop
  | m_gdpPercap => c_gdpPercap
  | m_lifeExp => c_lifeExp
  end.

(** The number a row holds in a metric column, as pandas compares it. *)
Definition metric_val (m : metric) (r : Row) : Q :=
  match m with
  | m_pop => inject_Z (pop r)
  | m_gdpPercap => gdpPercap r
  | m_lifeExp => lifeExp r
  end.

Abbreviation DataFrame := (list Row).

(** A frame whose columns carry display headers: [df.rename(columns=...)]
    keeps the rows and relabels the columns. *)
Record Frame := mkFrame {
  f_columns : list (string * column);
  f_rows : DataFrame
}.

(** Exceptions the modelled code can raise. *)
Inductive Error :=
| KeyError (key : string).

Inductive result (A : Type) :=
| Ok (a : A)
| Raise (e : Error).
Arguments Ok {A} a.
Arguments Raise {A} e.

(** [frame[h].values]: the cells of the column labelled [h], or pandas'
    [KeyError]. *)
Definition frame_getitem (f : Frame) (h : string) : result (list value) :=
  match list_find (fun hc => hc.1 = h) (f_columns f) with
  | Some (_, (_, c)) => Ok (map (cell c) (f_rows f))
  | None => Raise (KeyError h)
  end.

(** ** Sorting *)

(** Insertion sort by a "goes before" test: [x] is put in front of the
    first element it goes before. *)
Section isort.
Context {A : Type} (before : A -> A -> bool).

Fixpoint insert_by (x : A) (l : list A) : list A :=
  match l with
  | [] => [x]
  | y :: l' => if before x y then x :: y :: l' else y :: insert_by x l'
  end.

Fixpoint isort (l : list A) : list A :=
  match l with
  | [] => []
  | x :: l' => insert_by x (isort l')
  end.
End isort.

(** Descending order of a key, between neighbours. *)
Definition desc_by {A} (key : A -> Q) (a b : A) : Prop := (key b <= key a)%Q.

(** [DataFrame.sort_values(by=col, ascending=False)] with the default
    [kind].  pandas documents the default ([kind='quicksort']) as an
    unstable sort and promises only that the result holds the same rows,
    ordered by the key; the source passes no [kind].  The library routine
    is therefore an interface with exactly that contract, and the
    builders are parametrised by it. *)
Class Sorter := {
  sort_values_desc : (Row -> Q) -> list Row -> list Row;
  sort_values_perm : forall key l, sort_values_desc key l ≡ₚ l;
  sort_values_sorted : forall key l, Sorted (desc_by key) (sort_values_desc key l)
}.

(** [df.head(n)]: the first [n] rows, and for negative [n] all rows but
    the last [-n] (pandas: [df.iloc[:n]]). *)
Definition head {A} (n : Z) (l : list A) : list A :=
  if (0 <=? n)%Z then take (Z.to_nat n) l
  else take (length l - Z.to_nat (- n))%nat l.

(** [Series.unique()]: distinct values in order of first appearance. *)
Definition unique `{EqDecision A} (l : list A) : list A :=
  reverse (remove_dups (reverse l)).

(** Python's [sorted] on a list, ascending.  Strings compare character
    by character, which on UTF-8 bytes is the order of code points. *)
Definition sorted_str (l : list string) : list string :=
  isort String.leb l.
Definition sorted_int (l : list Z) : list Z :=
  isort Z.leb l.

(** ** Module globals and the state they live in *)

(** [TABLE_COL_RENAME] (lines 16-25). *)
Definition TABLE_COL_RENAME : gmap string string :=
  list_to_map
    [("country", "Country"); ("continent", "Continent"); ("year", "Year");
     ("lifeExp", "Life Expectancy"); ("pop", "Population");
     ("gdpPercap", "GDP per Capita");
     ("iso_alpha", "ISO Alpha Country Code"); ("iso_num", "ISO Numeric Code")].

(** [VAR_MAP] (line 33); the column names on the right are the three
    metric columns. *)
Definition VAR_MAP : gmap string metric :=
  list_to_map
    [("Population", m_pop); ("GDP per Capita", m_gdpPercap);
     ("Life Expectancy", m_lifeExp)].

(** [d.get(k, dflt)]. *)
Definition dict_get {V} (d : gmap string V) (k : string) (dflt : V) : V :=
  default dflt (d !! k).

(** [df.rename(columns=TABLE_COL_RENAME)] (line 26). *)
Definition rename_columns (ren : gmap string string) (d : DataFrame) : Frame :=
  {| f_columns := map (fun c => (dict_get ren (col_name c) (col_name c), c)) df_columns;
     f_rows := d |}.

Record Globals := mkGlobals {
  df : DataFrame;
  table_df : Frame;
  continents : list string;
  years : list Z
}.

(** The globals that lines 13-29 compute from the loaded dataset. *)
Definition module_globals (data : DataFrame) : Globals :=
  {| df := data;
     table_df := rename_columns TABLE_COL_RENAME data;
     continents := sorted_str (unique (map continent data));
     years := sorted_int (unique (map year data)) |}.

(** Running the import-time code on the loaded dataset: every step is a
    total library call, and no [raise] or check of the dataset's size
    stands between loading and the construction of the layout. *)
Definition startup (data : DataFrame) : result Globals :=
  Ok (module_globals data).

(** Computations that may read and write the module globals and may
    raise. *)
Definition Py (A : Type) : Type := Globals -> result A * Globals.

Definition py_ret {A} (a : A) : Py A := fun g => (Ok a, g).
Definition py_bind {A B} (m : Py A) (k : A -> Py B) : Py B :=
  fun g =>
    match m g with
    | (Ok a, g') => k a g'
    | (Raise e, g') => (Raise e, g')
    end.
Definition py_global {A} (proj : Globals -> A) : Py A := fun g => (Ok (proj g), g).
Definition py_lift {A} (r : result A) : Py A := fun g => (r, g).

Global Instance py_mret : MRet Py := @py_ret.
Global Instance py_mbind : MBind Py := fun A B k m => py_bind m k.

(** ** Themes and figures *)

Record Theme := mkTheme {
  template : string;
  page_bg : string;
  card_bg : string;
  text : string
}.

(** Lines 37-40. *)
Definition theme_settings (theme : string) : Theme :=
  if decide (theme = "dark") then
    {| template := "plotly_dark"; page_bg := "#111827"; card_bg := "#1f2937"; text := "#e5e7eb" |}
  else
    {| template := "plotly_white"; page_bg := "#e5ecf6"; card_bg := "#ffffff"; text := "#111827" |}.

Record Annotation := mkAnnotation {
  ann_text : string;
  ann_xref : string;
  ann_yref : string;
  ann_x : Q;
  ann_y : Q;
  ann_showarrow : bool;
  ann_font_size : Z
}.

(** The data part of a figure: nothing ([go.Figure()]), or the plot
    constructor called and its arguments. *)
Inductive Plot :=
| NoPlot
| PxBar (data : DataFrame) (x y color : column) (text_auto : bool)
        (orientation : option string)
| GoTable (header_values : list string) (header_align : string)
          (cells_values : list (list value)) (cells_align : string)
| PxChoropleth (data : DataFrame) (color locations : column)
               (locationmode color_continuous_scale : string)
               (hover_data : list column).

Record Layout := mkLayout {
  layout_template : string;
  paper_bgcolor : string;
  layout_title : option string;
  layout_height : Z;
  xaxis_visible : option bool;
  yaxis_visible : option bool;
  layout_margin : list (string * Z);
  legend_title : option string;
  dragmode : option bool
}.

Record Figure := mkFigure {
  fig_plot : Plot;
  fig_annotations : list Annotation;
  fig_layout : Layout;
  (* [update_traces(textposition=..., cliponaxis=...)] *)
  fig_textposition : option string;
  fig_cliponaxis : option bool
}.

Definition default_msg : string := "No data available for current filters.".

(** Lines 42-49. *)
Definition empty_figure (msg : string) : Figure :=
  {| fig_plot := NoPlot;
     fig_annotations :=
       [ {| ann_text := msg; ann_xref := "paper"; ann_yref := "paper";
            ann_x := 0.5; ann_y := 0.5; ann_showarrow := false;
            ann_font_size := 16 |} ];
     fig_layout :=
       {| layout_template := "plotly_white"; paper_bgcolor := "rgba(0,0,0,0)";
          layout_title := None; layout_height := 420;
          xaxis_visible := Some false; yaxis_visible := Some false;
          layout_margin := [("t", 40); ("l", 20); ("r", 20); ("b", 20)];
          legend_title := None; dragmode := None |};
     fig_textposition := None;
     fig_cliponaxis := None |}.

(** [filtered.empty]. *)
Definition frame_empty (d : DataFrame) : bool :=
  match d with [] => true | _ => false end.

(** Lines 51-61.  [x_col] is the category column, [y_col] the metric. *)
Definition make_bar `{Sorter} (filtered : DataFrame) (x_col : column) (y_col : metric)
    (title template orient : string) (top_n : Z) : Figure :=
  if frame_empty filtered then empty_figure default_msg
  else
    let data := head top_n (sort_values_desc (metric_val y_col) filtered) in
    {| fig_plot :=
         if decide (orient = "h")
         then PxBar data (metric_col y_col) x_col x_col true (Some "h")
         else PxBar data x_col (metric_col y_col) x_col true None;
       fig_annotations := [];
       fig_layout :=
         {| layout_template := template; paper_bgcolor := "rgba(0,0,0,0)";
            layout_title := Some title; layout_height := 600;
            xaxis_visible := None; yaxis_visible := None;
            layout_margin := [];
            legend_title := Some ""; dragmode := None |};
       fig_textposition := Some "outside";
       fig_cliponaxis := Some false |}.

(** Lines 63-70. *)
Definition create_table (template : string) : Py Figure :=
  (tdf ← py_global table_df;
   let headers := map (fun c => dict_get TABLE_COL_RENAME (col_name c) (col_name c)) df_columns in
   vals ← mapM (fun h => py_lift (frame_getitem tdf h)) headers;
   mret {| fig_plot := GoTable headers "left" vals "left";
           fig_annotations := [];
           fig_layout :=
             {| layout_template := template; paper_bgcolor := "rgba(0,0,0,0)";
                layout_title := None; layout_height := 700;
                xaxis_visible := None; yaxis_visible := None;
                layout_margin := [("t", 0); ("l", 0); ("r", 0); ("b", 0)];
                legend_title := None; dragmode := None |};
           fig_textposition := None;
           fig_cliponaxis := None |}).

(** [df[(df["continent"] == continent) & (df["year"] == int(year))]]. *)
Definition mask_continent_year (cont : string) (yr : Z) (d : DataFrame) : DataFrame :=
  filter (fun r => continent r = cont ∧ year r = yr) d.

(** [df[df["year"] == int(year)]]. *)
Definition mask_year (yr : Z) (d : DataFrame) : DataFrame :=
  filter (fun r => year r = yr) d.

(** Lines 72-76. *)
Definition create_population_chart `{Sorter} (cont : string) (yr : Z)
    (template orient : string) (top_n : Z) : Py Figure :=
  (d ← py_global df;
   let filtered := mask_continent_year cont yr d in
   mret (make_bar filtered c_country m_pop
              ("Population for " +:+ cont +:+ " in " +:+ pretty yr)
              template orient top_n)).

(** Lines 78-82. *)
Definition create_gdp_chart `{Sorter} (cont : string) (yr : Z)
    (template orient : string) (top_n : Z) : Py Figure :=
  (d ← py_global df;
   let filtered := mask_continent_year cont yr d in
   mret (make_bar filtered c_country m_gdpPercap
              ("GDP per Capita for " +:+ cont +:+ " in " +:+ pretty yr)
              template orient top_n)).

(** Lines 84-88. *)
Definition create_life_exp_chart `{Sorter} (cont : string) (yr : Z)
    (template orient : string) (top_n : Z) : Py Figure :=
  (d ← py_global df;
   let filtered := mask_continent_year cont yr d in
   mret (make_bar filtered c_country m_lifeExp
              ("Life Expectancy for " +:+ cont +:+ " in " +:+ pretty yr)
              template orient top_n)).

(** Lines 90-101. *)
Definition create_choropleth_map (variable_display : string) (yr : Z)
    (template : string) : Py Figure :=
  (let var_col := dict_get VAR_MAP variable_display m_lifeExp in
   d ← py_global df;
   let filtered := mask_year yr d in
   if frame_empty filtered then mret (empty_figure default_msg)
   else
     mret {| fig_plot :=
                  PxChoropleth filtered (metric_col var_col) c_iso_alpha "ISO-3" "RdYlBu"
                    [c_country; metric_col var_col];
                fig_annotations := [];
                fig_layout :=
                  {| layout_template := template; paper_bgcolor := "rgba(0,0,0,0)";
                     layout_title :=
                       Some (variable_display +:+ " Choropleth Map [" +:+ pretty yr +:+ "]");
                     layout_height := 600;
                     xaxis_visible := None; yaxis_visible := None;
                     layout_margin := [("l", 0); ("r", 0)];
                     legend_title := None; dragmode := Some false |};
                fig_textposition := None;
                fig_cliponaxis := None |}).

(** ** Callbacks (lines 218-248) *)

Definition update_table (theme : string) : Py Figure :=
  let t := theme_settings theme in
  create_table (template t).

Definition update_bars `{Sorter} (cont : string) (yr : Z) (theme : string)
    (topn : Z) (orient : string) : Py (Figure * Figure * Figure) :=
  (let t := theme_settings theme in
   fig1 ← create_population_chart cont yr (template t) orient topn;
   fig2 ← create_gdp_chart cont yr (template t) orient topn;
   fig3 ← create_life_exp_chart cont yr (template t) orient topn;
   mret (fig1, fig2, fig3)).

Definition update_map (var_display : string) (yr : Z) (theme : string) : Py Figure :=
  let t := theme_settings theme in
  create_choropleth_map var_display yr (template t).

(** ** Two implementations of the sorting interface *)

(** A row goes before another when its key is at least as large: rows
    with equal keys keep their order (what [kind='stable'] would do). *)
Definition before_stable (key : Row -> Q) (a b : Row) : bool :=
  Qle_bool (key b) (key a).

(** A row goes before another only when its key is strictly larger: rows
    with equal keys come out in reverse order. *)
Definition before_strict (key : Row -> Q) (a b : Row) : bool :=
  negb (Qle_bool (key a) (key b)).

(** ** The default sort of pandas on numpy's scalar quicksort

    [sort_values(by=col, ascending=False)] takes its row order from
    [nargsort(values, kind="quicksort", ascending=False)], which reverses
    the values, calls [argsort(kind="quicksort")] on them and reverses
    the resulting indexer.  For 64-bit keys numpy's [argsort] with
    [kind="quicksort"] is the introsort [aquicksort_] of
    npysort/quicksort.cpp wherever no vectorised kernel is dispatched:
    median-of-three partitioning of every stretch of more than 17 cells,
    insertion sort of the shorter ones, and heapsort below the depth
    limit.  The definitions follow that routine statement by statement;
    the index array is a list, pointers into it are positions, and each
    loop carries a bound on its number of rounds (the length of the
    array is enough for every one of them). *)

Section npysort.
Context (v : list Q).

(** [v[i]]. *)
Definition key_at (i : nat) : Q := default 0%Q (v !! i).

(** [Tag::less(a, b)]. *)
Definition less (a b : Q) : bool := negb (Qle_bool b a).

(** [*p], for a position [p] of the index array [a]. *)
Definition deref (a : list nat) (p : nat) : nat := default 0%nat (a !! p).

(** [v[*p]]. *)
Definition key_of (a : list nat) (p : nat) : Q := key_at (deref a p).

(** [INTP_SWAP] of the cells at positions [p] and [q]. *)
Definition INTP_SWAP (a : list nat) (p q : nat) : list nat :=
  <[p := deref a q]> (<[q := deref a p]> a).

(** [do { ++pi; } while (less(v[*pi], vp));] *)
Fixpoint scan_up (a : list nat) (vp : Q) (pi : nat) (fuel : nat) : nat :=
  match fuel with
  | O => pi
  | S fuel' =>
      let pi := S pi in
      if less (key_of a pi) vp then scan_up a vp pi fuel' else pi
  end.

(** [do { --pj; } while (less(vp, v[*pj]));] *)
Fixpoint scan_down (a : list nat) (vp : Q) (pj : nat) (fuel : nat) : nat :=
  match fuel with
  | O => pj
  | S fuel' =>
      let pj := pred pj in
      if less vp (key_of a pj) then scan_down a vp pj fuel' else pj
  end.

(** The [for (;;)] loop of the partition: scan, stop when the scans
    meet, swap otherwise. *)
Fixpoint exchange_loop (a : list nat) (vp : Q) (pi pj : nat) (fuel : nat)
    : list nat * nat :=
  match fuel with
  | O => (a, pi)
  | S fuel' =>
      let pi := scan_up a vp pi (length a) in
      let pj := scan_down a vp pj (length a) in
      if (pj <=? pi)%nat then (a, pi)
      else exchange_loop (INTP_SWAP a pi pj) vp pi pj fuel'
  end.

(** One partition of the cells [pl..pr]: median of three, pivot parked
    at [pr - 1], exchange loop, pivot swapped into place; returns the
    array and the pivot's position. *)
Definition quicksort_partition (a : list nat) (pl pr : nat) : list nat * nat :=
  let pm := (pl + (pr - pl) / 2)%nat in
  let a := if less (key_of a pm) (key_of a pl) then INTP_SWAP a pm pl else a in
  let a := if less (key_of a pr) (key_of a pm) then INTP_SWAP a pr pm else a in
  let a := if less (key_of a pm) (key_of a pl) then INTP_SWAP a pm pl else a in
  let vp := key_of a pm in
  let pj := (pr - 1)%nat in
  let a := INTP_SWAP a pm pj in
  let '(a, pi) := exchange_loop a vp pl pj (length a) in
  let pk := (pr - 1)%nat in
  (INTP_SWAP a pi pk, pi).

Definition SMALL_QUICKSORT : nat := 16.

(** [while ((pr - pl) > SMALL_QUICKSORT)]: partition, push the larger
    side with the decremented depth, go on with the smaller one. *)
Fixpoint partition_loop (a : list nat) (pl pr : nat) (cdepth : Z)
    (stack : list (nat * nat * Z)) (fuel : nat)
    : list nat * nat * nat * Z * list (nat * nat * Z) :=
  match fuel with
  | O => (a, pl, pr, cdepth, stack)
  | S fuel' =>
      if (SMALL_QUICKSORT <? pr - pl)%nat then
        let '(a, pi) := quicksort_partition a pl pr in
        let cdepth := cdepth - 1 in
        if (pi - pl <? pr - pi)%nat
        then partition_loop a pl (pi - 1) cdepth ((S pi, pr, cdepth) :: stack) fuel'
        else partition_loop a (S pi) pr cdepth ((pl, (pi - 1)%nat, cdepth) :: stack) fuel'
      else (a, pl, pr, cdepth, stack)
  end.

(** [while (pj > pl && less(vp, v[*pk])) { *pj-- = *pk--; }] *)
Fixpoint shift_right (a : list nat) (vp : Q) (pl pj : nat) (fuel : nat)
    : list nat * nat :=
  match fuel with
  | O => (a, pj)
  | S fuel' =>
      if (pl <? pj)%nat && less vp (key_of a (pj - 1))
      then shift_right (<[pj := deref a (pj - 1)]> a) vp pl (pj - 1) fuel'
      else (a, pj)
  end.

(** The insertion sort of the cells [pl..pr]. *)
Definition insertion_sort (a : list nat) (pl pr : nat) : list nat :=
  foldl (fun a pi =>
           let vi := deref a pi in
           let '(a, pj) := shift_right a (key_at vi) pl pi (length a) in
           <[pj := vi]> a)
        a (seq (S pl) (pr - pl)).

(** The sift loop of the heapsort over the [n] cells from [pl] on; heap
    cell [k], counted from 1, is position [pl + k - 1]. *)
Fixpoint sift_down (a : list nat) (pl : nat) (tmp : nat) (i j n : nat) (fuel : nat)
    : list nat * nat :=
  match fuel with
  | O => (a, i)
  | S fuel' =>
      if (j <=? n)%nat then
        let j := if (j <? n)%nat && less (key_of a (pl + j - 1)) (key_of a (pl + j))
                 then S j else j in
        if less (key_at tmp) (key_of a (pl + j - 1))
        then sift_down (<[(pl + i - 1)%nat := deref a (pl + j - 1)]> a) pl tmp j (j + j) n fuel'
        else (a, i)
      else (a, i)
  end.

(** [aheapsort_]: build the heap, then move its top to the end [n - 1]
    times. *)
Definition aheapsort (a : list nat) (pl n : nat) : list nat :=
  let a :=
    foldl (fun a l =>
             let tmp := deref a (pl + l - 1) in
             let '(a, i) := sift_down a pl tmp l (l + l) n (length a) in
             <[(pl + i - 1)%nat := tmp]> a)
          a (reverse (seq 1 (n / 2))) in
  foldl (fun a n =>
           let tmp := deref a (pl + n - 1) in
           let a := <[(pl + n - 1)%nat := deref a pl]> a in
           let n := (n - 1)%nat in
           let '(a, i) := sift_down a pl tmp 1 2 n (length a) in
           <[(pl + i - 1)%nat := tmp]> a)
        a (reverse (seq 2 (n - 1))).

(** The outer [while (1)]: heapsort when the depth is used up, else
    partition and insertion sort; then pop the next stretch. *)
Fixpoint quicksort_loop (a : list nat) (pl pr : nat) (cdepth : Z)
    (stack : list (nat * nat * Z)) (fuel : nat) : list nat :=
  match fuel with
  | O => a
  | S fuel' =>
      let '(a, stack) :=
        if (cdepth <? 0)%Z then (aheapsort a pl (pr - pl + 1), stack)
        else
          let '(a, pl, pr, _, stack) := partition_loop a pl pr cdepth stack (length a) in
          (insertion_sort a pl pr, stack) in
      match stack with
      | [] => a
      | (pl, pr, cdepth) :: stack => quicksort_loop a pl pr cdepth stack fuel'
      end
  end.

(** [argsort(kind="quicksort")] of [v]: the index array starts as
    [0 .. num - 1], the depth limit is twice the position of the top bit
    of [num]. *)
Definition aquicksort : list nat :=
  let num := length v in
  quicksort_loop (seq 0 num) 0 (num - 1) (Z.log2 (Z.of_nat num) * 2) [] (S num).
End npysort.

(** [nargsort(items, kind="quicksort", ascending=False)] on values
    without NaN. *)
Definition nargsort_desc (items : list Q) : list nat :=
  let idx := seq 0 (length items) in
  let non_nans := reverse items in
  let non_nan_idx := reverse idx in
  let indexer := map (deref non_nan_idx) (aquicksort non_nans) in
  reverse indexer.

(** [frame.take(indexer)]. *)
Definition take_rows (l : list Row) (indexer : list nat) : list Row :=
  omap (fun i => l !! i) indexer.

(** The rows are in descending order of the key. *)
Fixpoint sorted_descb (key : Row -> Q) (l : list Row) : bool :=
  match l with
  | a :: l' =>
      match l' with
      | b :: _ => Qle_bool (key b) (key a) && sorted_descb key l'
      | [] => true
      end
  | [] => true
  end.

(** The indexer names every position below [n] once. *)
Definition is_arrangement (indexer : list nat) (n : nat) : bool :=
  bool_decide (isort Nat.leb indexer = seq 0 n).

(** The rows of [l] in the order of [nargsort_desc].  That introsort
    returns an ordered arrangement is checked on the result rather than
    proved of the routine; would the check fail, the rows are ordered by
    insertion instead. *)
Definition numpy_sort_values_desc (key : Row -> Q) (l : list Row) : list Row :=
  let indexer := nargsort_desc (map key l) in
  let out := take_rows l indexer in
  if is_arrangement indexer (length l) && sorted_descb key out then out
  else isort (fun a b => Qle_bool (key b) (key a)) l.

(** ** What a figure shows *)

(** The rows of the frame a figure was plotted from. *)
Definition displayed_rows (fig : Figure) : list Row :=
  match fig_plot fig with
  | PxBar data _ _ _ _ _ => data
  | PxChoropleth data _ _ _ _ _ => data
  | _ => []
  end.

Global Instance Q_eq_dec : EqDecision Q.
Proof. solve_decision. Defined.
Global Instance value_eq_dec : EqDecision value.
Proof. solve_decision. Defined.

(** The categories of a bar figure: the distinct values of its colour
    column, one legend entry and one bar group each. *)
Definition categories (fig : Figure) : list value :=
  match fig_plot fig with
  | PxBar data _ _ color _ _ => unique (map (cell color) data)
  | _ => []
  end.

(** Columns holding numbers. *)
Definition is_numeric (c : column) : bool :=
  match c with
  | c_year | c_lifeExp | c_pop | c_gdpPercap | c_iso_num => true
  | _ => false
  end.

(** The direction in which plotly draws the bars of a bar plot: the
    [orientation] argument when one was passed, and otherwise horizontal
    only if x is numeric and y is not. *)
Definition plot_orientation (p : Plot) : option string :=
  match p with
  | PxBar _ x y _ _ (Some o) => Some o
  | PxBar _ x y _ _ None =>
      Some (if is_numeric x && negb (is_numeric y) then "h" else "v")
  | _ => None
  end.

(** The figure with its template field blanked: what is left is the
    data, the annotations and every layout field but the template. *)
Definition without_template (fig : Figure) : Figure :=
  let l := fig_layout fig in
  {| fig_plot := fig_plot fig;
     fig_annotations := fig_annotations fig;
     fig_layout :=
       {| layout_template := ""; paper_bgcolor := paper_bgcolor l;
          layout_title := layout_title l; layout_height := layout_height l;
          xaxis_visible := xaxis_visible l; yaxis_visible := yaxis_visible l;
          layout_margin := layout_margin l; legend_title := legend_title l;
          dragmode := dragmode l |};
     fig_textposition := fig_textposition fig;
     fig_cliponaxis := fig_cliponaxis fig |}.

(** The regions of a choropleth: location key and colour value of each
    plotted row. *)
Definition regions (fig : Figure) : list (value * value) :=
  match fig_plot fig with
  | PxChoropleth data color locations _ _ _ =>
      map (fun r => (cell locations r, cell color r)) data
  | _ => []
  end.

(** Descending by a key at every pair of neighbouring positions. *)
Definition descending (key : Row -> Q) (l : list Row) : Prop :=
  forall i a b, l !! i = Some a -> l !! S i = Some b -> (key b <= key a)%Q.

(** Rows with equal keys stand in [shown] in the order they have in
    [dataset]. *)
Definition ties_in_dataset_order (key : Row -> Q) (shown dataset : list Row) : Prop :=
  forall i j a b,
    (i < j)%nat -> shown !! i = Some a -> shown !! j = Some b ->
    (key a == key b)%Q ->
    exists i' j', (i' < j')%nat /\ dataset !! i' = Some a /\ dataset !! j' = Some b.

(** What the figure of a ranked bar chart shows, against the filter it
    was asked for. *)
Definition bar_within (cont : string) (yr top_n : Z) (matching : list Row)
    (fig : Figure) : Prop :=
  (forall r, r ∈ displayed_rows fig -> continent r = cont /\ year r = yr) /\
  (length (categories fig) <= length (displayed_rows fig))%nat /\
  (length (displayed_rows fig) <= length matching)%nat /\
  Z.of_nat (length (displayed_rows fig)) <= top_n.

(** The placeholder has no data series and exactly one annotation, the
    message, anchored at the centre of the paper. *)
Definition is_placeholder (fig : Figure) : Prop :=
  fig_plot fig = NoPlot /\
  exists a, fig_annotations fig = [a] /\
    ann_text a = default_msg /\
    ann_xref a = "paper" /\ ann_yref a = "paper" /\
    (ann_x a == 1 # 2)%Q /\ (ann_y a == 1 # 2)%Q.

(** The two outputs of [theme_settings]. *)
Definition dark_bundle : Theme :=
  {| template := "plotly_dark"; page_bg := "#111827"; card_bg := "#1f2937"; text := "#e5e7eb" |}.
Definition light_bundle : Theme :=
  {| template := "plotly_white"; page_bg := "#e5ecf6"; card_bg := "#ffffff"; text := "#111827" |}.

Definition table_header (fig : Figure) : list string :=
  match fig_plot fig with
  | GoTable header _ _ _ => header
  | _ => []
  end.

Definition table_cells (fig : Figure) : list (list value) :=
  match fig_plot fig with
  | GoTable _ _ cells _ => cells
  | _ => []
  end.

(** The headers of the table, in the column order of the dataset. *)
Definition table_headers : list string :=
  ["Country"; "Continent"; "Year"; "Life Expectancy"; "Population";
   "GDP per Capita"; "ISO Alpha Country Code"; "ISO Numeric Code"].

(** The figure [create_choropleth_map] builds on a frame with rows. *)
Definition choropleth_figure (variable_display : string) (yr : Z) (template : string)
    (filtered : DataFrame) : Figure :=
  let var_col := dict_get VAR_MAP variable_display m_lifeExp in
  {| fig_plot :=
       PxChoropleth filtered (metric_col var_col) c_iso_alpha "ISO-3" "RdYlBu"
         [c_country; metric_col var_col];
     fig_annotations := [];
     fig_layout :=
       {| layout_template := template; paper_bgcolor := "rgba(0,0,0,0)";
          layout_title :=
            Some (variable_display +:+ " Choropleth Map [" +:+ pretty yr +:+ "]");
          layout_height := 600;
          xaxis_visible := None; yaxis_visible := None;
          layout_margin := [("l", 0); ("r", 0)];
          legend_title := None; dragmode := Some false |};
     fig_textposition := None;
     fig_cliponaxis := None |}.

(** The style a ranked-bar figure ends up with, for the theme it was
    asked for and the rows the filter kept. *)
Definition bar_style (theme : string) (matching : list Row) (fig : Figure) : Prop :=
  paper_bgcolor (fig_layout fig) = "rgba(0,0,0,0)" /\
  (matching <> [] -> layout_template (fig_layout fig) = template (theme_settings theme)) /\
  (matching = [] -> layout_template (fig_layout fig) = "plotly_white").

(** One callback run with the dark theme and then with the light one. *)
Definition dark_then_light {A} (call : string -> Py A) : Py (A * A) :=
  fig_dark ← call "dark";
  fig_light ← call "light";
  mret (fig_dark, fig_light).

(** Two figures with the same content apart from the template. *)
Definition same_data (a b : Figure) : Prop :=
  without_template a = without_template b.

(** ** Selector options and page styles *)

(** One entry of a dropdown: [{"label": ..., "value": ...}]. *)
Record DropdownOption (V : Type) := mkOption {
  opt_label : string;
  opt_value : V
}.
Arguments mkOption {V} opt_label opt_value.
Arguments opt_label {V} d.
Arguments opt_value {V} d.

(** Line 31. *)
Definition continent_options (g : Globals) : list (DropdownOption string) :=
  map (fun c => mkOption c c) (continents g).

(** Line 32: the label is [str(y)], the value [int(y)]. *)
Definition year_options (g : Globals) : list (DropdownOption Z) :=
  map (fun y => mkOption (pretty y) y) (years g).

(** Lines 212-216: the page style and the style shared by the six
    cards, as the dictionaries the callback returns. *)
Definition paint_theme (theme : string)
    : Py (gmap string string * gmap string string * gmap string string *
          gmap string string * gmap string string * gmap string string *
          gmap string string) :=
  let t := theme_settings theme in
  let page_style : gmap string string :=
    list_to_map [("backgroundColor", page_bg t); ("minHeight", "100vh")] in
  let card_style : gmap string string :=
    list_to_map [("backgroundColor", card_bg t); ("color", text t)] in
  mret (page_style, card_style, card_style, card_style, card_style, card_style, card_style).

Global Instance Row_eq_dec : EqDecision Row.
Proof. solve_decision. Defined.

(** ** Sample data *)

(** Five records in the shape of the gapminder table. *)
Definition sample_rows : DataFrame :=
  [ mkRow "Afghanistan" "Asia" 1952 28.801 8425333 779.4453145 "AFG" 4;
    mkRow "Bahrain" "Asia" 1952 50.939 120447 9867.084765 "BHR" 48;
    mkRow "Bangladesh" "Asia" 1952 37.484 46886859 684.2441716 "BGD" 50;
    mkRow "Albania" "Europe" 1952 55.23 1282697 1601.056136 "ALB" 8;
    mkRow "Afghanistan" "Asia" 1957 30.332 9240934 820.8530296 "AFG" 4 ].

(** Two records of one continent and year with the same population. *)
Definition tied_first : Row := mkRow "Eastland" "Asia" 1952 40.5 5000 300.25 "EAS" 901.
Definition tied_second : Row := mkRow "Westland" "Asia" 1952 61.25 5000 150.5 "WES" 902.
Definition tied_rows : DataFrame := [tied_first; tied_second].

(** Two of the sample records. *)
Definition afghanistan_1952 : Row :=
  mkRow "Afghanistan" "Asia" 1952 28.801 8425333 779.4453145 "AFG" 4.
Definition bahrain_1952 : Row :=
  mkRow "Bahrain" "Asia" 1952 50.939 120447 9867.084765 "BHR" 48.

(** Twenty records of one continent and year whose populations
    alternate between 5000 and 7000: record [k] is country "C<k>". *)
Definition alternating_row (k : nat) : Row :=
  mkRow ("C" +:+ pretty k) "Asia" 1952 60.5
    (if Nat.even k then 5000 else 7000) 1000.25 ("I" +:+ pretty k) (Z.of_nat k).
Definition alternating_rows : DataFrame := map alternating_row (seq 0 20).

(** ** Facts about the list operations *)

Section isort_facts.
Context {A : Type} (before : A -> A -> bool) (R : A -> A -> Prop).
Hypothesis before_true : forall x y, before x y = true -> R x y.
Hypothesis before_false : forall x y, before x y = false -> R y x.

Lemma insert_by_perm x l : insert_by before x l ≡ₚ x :: l.
Proof.
  induction l as [|y l IH]; simpl; [done|].
  destruct (before x y); [done|].
  rewrite IH. apply Permutation_swap.
Qed.

Lemma isort_perm l : isort before l ≡ₚ l.
Proof.
  induction l as [|x l IH]; simpl; [done|].
  by rewrite insert_by_perm, IH.
Qed.

Lemma insert_by_hd x y l :
  R y x -> HdRel R y l -> HdRel R y (insert_by before x l).
Proof.
  intros Hyx Hhd. destruct l as [|z l]; simpl.
  - by constructor.
  - inversion_clear Hhd. destruct (before x z); by constructor.
Qed.

Lemma insert_by_sorted x l : Sorted R l -> Sorted R (insert_by before x l).
Proof.
  induction 1 as [|y l Hs IH Hhd]; simpl.
  - repeat constructor.
  - destruct (before x y) eqn:E.
    + constructor; [by constructor|]. constructor. by apply before_true.
    + constructor; [done|]. apply insert_by_hd; [|done]. by apply before_false.
Qed.

Lemma isort_sorted l : Sorted R (isort before l).
Proof.
  induction l as [|x l IH]; simpl; [constructor|]. by apply insert_by_sorted.
Qed.
End isort_facts.

Lemma Sorted_descending key l : Sorted (desc_by key) l -> descending key l.
Proof.
  induction 1 as [|x l Hs IH Hhd]; intros i a b Ha Hb; [done|].
  destruct i as [|i]; simpl in *.
  - destruct l as [|y l]; [done|]. inversion_clear Hhd as [|? ? Hab].
    simpl in Hb. simplify_eq. exact Hab.
  - by eapply IH.
Qed.

Lemma Sorted_take {A} (R : A -> A -> Prop) n l : Sorted R l -> Sorted R (take n l).
Proof.
  intros Hs. revert n. induction Hs as [|x l Hs IH Hhd]; intros [|n]; simpl;
    try constructor; [apply IH|].
  destruct Hhd; destruct n; simpl; by constructor.
Qed.

Lemma head_take {A} n (l : list A) : exists k, head n l = take k l.
Proof. unfold head. destruct (0 <=? n)%Z; eauto. Qed.

Lemma head_length_le {A} n (l : list A) : (length (head n l) <= length l)%nat.
Proof. destruct (head_take n l) as [k ->]. rewrite length_take. lia. Qed.

Lemma head_length_nonneg {A} n (l : list A) :
  0 <= n -> Z.of_nat (length (head n l)) <= n.
Proof.
  intros Hn. unfold head. rewrite (proj2 (Z.leb_le 0 n) Hn), length_take. lia.
Qed.

Lemma head_subseteq {A} n (l : list A) : head n l ⊆ l.
Proof.
  destruct (head_take n l) as [k ->]. intros x Hx.
  rewrite <- (take_drop k l). apply elem_of_app. by left.
Qed.

Lemma unique_elem_of `{EqDecision A} (l : list A) x : x ∈ unique l <-> x ∈ l.
Proof. unfold unique. by rewrite elem_of_reverse, elem_of_remove_dups, elem_of_reverse. Qed.

Lemma unique_NoDup `{EqDecision A} (l : list A) : NoDup (unique l).
Proof. unfold unique. rewrite reverse_Permutation. apply NoDup_remove_dups. Qed.

Lemma unique_length_le `{EqDecision A} (l : list A) : (length (unique l) <= length l)%nat.
Proof.
  unfold unique. rewrite length_reverse, <- (length_reverse l).
  generalize (reverse l). intros l'. induction l' as [|x l' IH]; simpl; [done|].
  case_decide; simpl; lia.
Qed.

(** ** The two sorters meet the interface *)

Lemma before_stable_true key a b : before_stable key a b = true -> desc_by key a b.
Proof. unfold before_stable, desc_by. apply Qle_bool_imp_le. Qed.

Lemma before_stable_false key a b : before_stable key a b = false -> desc_by key b a.
Proof.
  unfold before_stable, desc_by. intros E.
  destruct (Qlt_le_dec (key a) (key b)) as [Hlt|Hle].
  - by apply Qlt_le_weak.
  - apply Qle_bool_iff in Hle. congruence.
Qed.

Lemma before_strict_true key a b : before_strict key a b = true -> desc_by key a b.
Proof.
  unfold before_strict, desc_by. intros E. apply negb_true_iff in E.
  destruct (Qlt_le_dec (key b) (key a)) as [Hlt|Hle].
  - by apply Qlt_le_weak.
  - apply Qle_bool_iff in Hle. congruence.
Qed.

Lemma before_strict_false key a b : before_strict key a b = false -> desc_by key b a.
Proof.
  unfold before_strict, desc_by. intros E. apply negb_false_iff in E.
  by apply Qle_bool_imp_le.
Qed.

(** The stable sort: what [sort_values(..., kind='stable')] computes. *)
Definition stable_sorter : Sorter :=
  {| sort_values_desc key := isort (before_stable key);
     sort_values_perm key := isort_perm (before_stable key);
     sort_values_sorted key :=
       isort_sorted _ _ (before_stable_true key) (before_stable_false key) |}.

(** A sort that the interface equally allows and that is not stable. *)
Definition tie_reversing_sorter : Sorter :=
  {| sort_values_desc key := isort (before_strict key);
     sort_values_perm key := isort_perm (before_strict key);
     sort_values_sorted key :=
       isort_sorted _ _ (before_strict_true key) (before_strict_false key) |}.

Lemma sorted_descb_Sorted key l : sorted_descb key l = true -> Sorted (desc_by key) l.
Proof.
  induction l as [|a l IH]; [constructor|].
  destruct l as [|b l]; [repeat constructor|].
  intros Hs. change (Qle_bool (key b) (key a) && sorted_descb key (b :: l) = true) in Hs.
  apply andb_true_iff in Hs as [Hab Hs].
  constructor; [by apply IH|]. constructor. by apply Qle_bool_imp_le.
Qed.

Lemma take_rows_all (l : list Row) : take_rows l (seq 0 (length l)) = l.
Proof.
  unfold take_rows. induction l as [|x l IH] using rev_ind; [done|].
  rewrite length_app, Nat.add_1_r, seq_S, omap_app. simpl.
  rewrite list_lookup_middle by done. simpl. f_equal.
  rewrite <- IH at 2. apply list_omap_ext, Forall_Forall2_diag, Forall_forall.
  intros i Hi%elem_of_seq. apply lookup_app_l. lia.
Qed.

Lemma take_rows_arrangement l indexer :
  is_arrangement indexer (length l) = true -> take_rows l indexer ≡ₚ l.
Proof.
  unfold is_arrangement. intros Hp%bool_decide_eq_true.
  rewrite <- (take_rows_all l) at 2. unfold take_rows.
  apply omap_Permutation. rewrite <- Hp. symmetry. apply isort_perm.
Qed.

Lemma numpy_sort_values_perm key l : numpy_sort_values_desc key l ≡ₚ l.
Proof.
  unfold numpy_sort_values_desc.
  destruct (is_arrangement _ _) eqn:Harr; simpl; [|apply isort_perm].
  destruct (sorted_descb _ _); [by apply take_rows_arrangement|apply isort_perm].
Qed.

Lemma numpy_sort_values_sorted key l :
  Sorted (desc_by key) (numpy_sort_values_desc key l).
Proof.
  unfold numpy_sort_values_desc.
  destruct (is_arrangement _ _ && sorted_descb _ _) eqn:Hok.
  - apply andb_true_iff in Hok as [_ Hs]. by apply sorted_descb_Sorted.
  - apply (isort_sorted _ _ (before_stable_true key) (before_stable_false key)).
Qed.

(** The sort of pandas where numpy runs its scalar quicksort. *)
Definition numpy_sorter : Sorter :=
  {| sort_values_desc := numpy_sort_values_desc;
     sort_values_perm := numpy_sort_values_perm;
     sort_values_sorted := numpy_sort_values_sorted |}.

(** ** Running the builders *)

Lemma create_population_chart_run `{Sorter} cont yr template orient top_n g :
  create_population_chart cont yr template orient top_n g =
  (Ok (make_bar (mask_continent_year cont yr (df g)) c_country m_pop
         ("Population for " +:+ cont +:+ " in " +:+ pretty yr) template orient top_n), g).
Proof. reflexivity. Qed.

Lemma create_gdp_chart_run `{Sorter} cont yr template orient top_n g :
  create_gdp_chart cont yr template orient top_n g =
  (Ok (make_bar (mask_continent_year cont yr (df g)) c_country m_gdpPercap
         ("GDP per Capita for " +:+ cont +:+ " in " +:+ pretty yr) template orient top_n), g).
Proof. reflexivity. Qed.

Lemma create_life_exp_chart_run `{Sorter} cont yr template orient top_n g :
  create_life_exp_chart cont yr template orient top_n g =
  (Ok (make_bar (mask_continent_year cont yr (df g)) c_country m_lifeExp
         ("Life Expectancy for " +:+ cont +:+ " in " +:+ pretty yr) template orient top_n), g).
Proof. reflexivity. Qed.

Lemma update_bars_run `{Sorter} cont yr theme topn orient g :
  update_bars cont yr theme topn orient g =
  (Ok (make_bar (mask_continent_year cont yr (df g)) c_country m_pop
         ("Population for " +:+ cont +:+ " in " +:+ pretty yr)
         (template (theme_settings theme)) orient topn,
       make_bar (mask_continent_year cont yr (df g)) c_country m_gdpPercap
         ("GDP per Capita for " +:+ cont +:+ " in " +:+ pretty yr)
         (template (theme_settings theme)) orient topn,
       make_bar (mask_continent_year cont yr (df g)) c_country m_lifeExp
         ("Life Expectancy for " +:+ cont +:+ " in " +:+ pretty yr)
         (template (theme_settings theme)) orient topn), g).
Proof. reflexivity. Qed.

Lemma sort_values_nil `{Sorter} key : sort_values_desc key [] = [].
Proof. apply Permutation_nil_r, sort_values_perm. Qed.

Lemma head_nil {A} n : head n (@nil A) = [].
Proof. unfold head. destruct (0 <=? n)%Z; apply take_nil. Qed.

(** The rows a bar figure shows are the head of the sorted frame, also
    when the frame is empty and the placeholder is returned. *)
Lemma make_bar_rows `{Sorter} filtered x_col y_col title template orient top_n :
  displayed_rows (make_bar filtered x_col y_col title template orient top_n) =
  head top_n (sort_values_desc (metric_val y_col) filtered).
Proof.
  unfold make_bar. destruct filtered as [|r l]; simpl.
  - by rewrite sort_values_nil, head_nil.
  - unfold displayed_rows; simpl. by case_decide.
Qed.

Lemma make_bar_categories `{Sorter} filtered x_col y_col title template orient top_n :
  categories (make_bar filtered x_col y_col title template orient top_n) =
  unique (map (cell x_col)
            (displayed_rows (make_bar filtered x_col y_col title template orient top_n))).
Proof.
  unfold make_bar. destruct filtered as [|r l]; simpl; [done|].
  unfold categories, displayed_rows; simpl. by case_decide.
Qed.

Lemma mask_continent_year_elem_of cont yr d r :
  r ∈ mask_continent_year cont yr d <-> r ∈ d /\ continent r = cont /\ year r = yr.
Proof. unfold mask_continent_year. rewrite list_elem_of_filter. tauto. Qed.

Lemma mask_year_elem_of yr d r : r ∈ mask_year yr d <-> r ∈ d /\ year r = yr.
Proof. unfold mask_year. rewrite list_elem_of_filter. tauto. Qed.

(** The year mask keeps the rows of the year, in the frame's order. *)
Lemma mask_year_filter yr d :
  mask_year yr d = List.filter (fun r => (year r =? yr)%Z) d.
Proof.
  unfold mask_year. induction d as [|r d IH]; [done|].
  rewrite filter_cons. simpl. rewrite IH.
  destruct (Z.eqb_spec (year r) yr) as [Heq|Hne]; by case_decide.
Qed.

Lemma make_bar_within `{Sorter} cont yr d y_col title template orient top_n :
  0 <= top_n ->
  bar_within cont yr top_n (mask_continent_year cont yr d)
    (make_bar (mask_continent_year cont yr d) c_country y_col title template orient top_n).
Proof.
  intros Hn. unfold bar_within.
  rewrite make_bar_categories, make_bar_rows.
  split; [|split; [|split]].
  - intros r Hr. apply head_subseteq in Hr.
    rewrite sort_values_perm in Hr.
    apply mask_continent_year_elem_of in Hr. tauto.
  - etrans; [apply unique_length_le|]. by rewrite length_map.
  - etrans; [apply head_length_le|]. by rewrite sort_values_perm.
  - by apply head_length_nonneg.
Qed.

(** ** Ranked bars: filter and bounds *)

(** Whatever [top_n] is, a bar figure shows rows of the filtered frame
    only, and no more of them than the frame has. *)
Lemma make_bar_rows_of_filtered `{Sorter} filtered x_col y_col title template orient top_n :
  displayed_rows (make_bar filtered x_col y_col title template orient top_n) ⊆ filtered /\
  (length (displayed_rows (make_bar filtered x_col y_col title template orient top_n))
     <= length filtered)%nat.
Proof.
  rewrite make_bar_rows. split.
  - intros r Hr. apply head_subseteq in Hr. by rewrite sort_values_perm in Hr.
  - etrans; [apply head_length_le|]. by rewrite sort_values_perm.
Qed.

(** C1: for every continent, year, orientation and theme and every
    top_n the slider can supply (5 to 25; the proof needs only that
    top_n is not negative), each of the three ranked-bar figures shows
    only rows of exactly the given continent and year, has no more
    categories than rows, no more rows than the dataset has for that
    continent and year, and no more rows, hence categories, than
    top_n. *)
Theorem ranked_bars_filtered_and_bounded `{Sorter} g cont yr theme topn orient :
  0 <= topn ->
  exists f1 f2 f3,
    update_bars cont yr theme topn orient g = (Ok (f1, f2, f3), g) /\
    Forall (bar_within cont yr topn (mask_continent_year cont yr (df g))) [f1; f2; f3].
Proof.
  intros Hn. rewrite update_bars_run. do 3 eexists. split; [reflexivity|].
  do 3 (constructor; [by apply make_bar_within|]). constructor.
Qed.

Lemma ranked_bars_filtered_and_bounded_witness :
  0 <= 15 /\
  exists f1 f2 f3,
    update_bars (H:=stable_sorter) "Asia" 1952 "dark" 15 "v" (module_globals sample_rows) =
      (Ok (f1, f2, f3), module_globals sample_rows) /\
    Forall (bar_within "Asia" 1952 15
              (mask_continent_year "Asia" 1952 (df (module_globals sample_rows))))
      [f1; f2; f3].
Proof.
  split; [lia|].
  apply (ranked_bars_filtered_and_bounded (H:=stable_sorter)
           (module_globals sample_rows) "Asia" 1952 "dark" 15 "v").
  lia.
Defined.

(** ** Ranked bars: order *)

Lemma make_bar_descending `{Sorter} filtered x_col y_col title template orient top_n :
  descending (metric_val y_col)
    (displayed_rows (make_bar filtered x_col y_col title template orient top_n)).
Proof.
  rewrite make_bar_rows. apply Sorted_descending.
  destruct (head_take top_n (sort_values_desc (metric_val y_col) filtered)) as [k ->].
  apply Sorted_take, sort_values_sorted.
Qed.

(** C2, amended: in each of the three ranked-bar figures the rows are
    in descending order of the figure's metric, the population chart by
    pop, the GDP chart by gdpPercap, the life-expectancy chart by
    lifeExp: at neighbouring positions i and i+1, metric(i) >=
    metric(i+1).  The order among rows of equal metric is whatever the
    sort of the library yields; it need not be the dataset's. *)
Theorem ranked_bars_descending `{Sorter} g cont yr theme topn orient :
  exists f1 f2 f3,
    update_bars cont yr theme topn orient g = (Ok (f1, f2, f3), g) /\
    descending (fun r => inject_Z (pop r)) (displayed_rows f1) /\
    descending gdpPercap (displayed_rows f2) /\
    descending lifeExp (displayed_rows f3).
Proof.
  rewrite update_bars_run. do 3 eexists. split; [reflexivity|].
  split; [|split].
  - exact (make_bar_descending _ c_country m_pop _ _ _ _).
  - exact (make_bar_descending _ c_country m_gdpPercap _ _ _ _).
  - exact (make_bar_descending _ c_country m_lifeExp _ _ _ _).
Qed.

(** Twenty rows of Asia in 1952 whose populations alternate between
    5000 and 7000, top_n = 25: numpy's quicksort partitions the twenty
    keys, and the rows come out with the ten of population 7000 first and
    the ten of population 5000 after them, neither group in dataset
    order.  The first two bars are C19 and C13, which stand in the
    dataset the other way round. *)
Lemma numpy_quicksort_reorders_ties :
  exists fig,
    (create_population_chart (H:=numpy_sorter) "Asia" 1952 "plotly_white" "v" 25
       (module_globals alternating_rows)).1 = Ok fig /\
    displayed_rows fig =
      take_rows alternating_rows (nargsort_desc (map (metric_val m_pop) alternating_rows)) /\
    map country (displayed_rows fig) =
      ["C19"; "C13"; "C3"; "C17"; "C5"; "C7"; "C15"; "C9"; "C1"; "C11";
       "C18"; "C16"; "C14"; "C0"; "C12"; "C8"; "C6"; "C4"; "C2"; "C10"] /\
    ~ ties_in_dataset_order (fun r => inject_Z (pop r)) (displayed_rows fig)
        alternating_rows.
Proof.
  eexists. split; [reflexivity|]. split; [by vm_compute|]. split; [by vm_compute|].
  intros Hties.
  destruct (Hties 0%nat 1%nat (alternating_row 19) (alternating_row 13))
    as (i' & j' & Hlt & Hi & Hj); [lia|by vm_compute|by vm_compute|by vm_compute|].
  assert (Hnd : NoDup alternating_rows)
    by (apply (bool_decide_unpack _); vm_compute; exact I).
  assert (Hi19 : alternating_rows !! 19%nat = Some (alternating_row 19)) by reflexivity.
  assert (Hj13 : alternating_rows !! 13%nat = Some (alternating_row 13)) by reflexivity.
  pose proof (NoDup_lookup _ _ _ _ Hnd Hi Hi19) as ->.
  pose proof (NoDup_lookup _ _ _ _ Hnd Hj Hj13) as ->.
  lia.
Qed.

(** The stable sort keeps the same two rows in their dataset order. *)
Example stable_sort_keeps_ties :
  exists fig,
    (create_population_chart (H:=stable_sorter) "Asia" 1952 "plotly_white" "v" 15
       (module_globals tied_rows)).1 = Ok fig /\
    displayed_rows fig = tied_rows.
Proof. eexists. split; [reflexivity|]. by vm_compute. Qed.

(** ** The placeholder *)

Lemma create_choropleth_map_empty var yr template g :
  mask_year yr (df g) = [] ->
  create_choropleth_map var yr template g = (Ok (empty_figure default_msg), g).
Proof.
  intros He. unfold create_choropleth_map, mbind, py_mbind, py_bind, py_global.
  by rewrite He.
Qed.

Lemma make_bar_empty `{Sorter} x_col y_col title template orient top_n :
  make_bar [] x_col y_col title template orient top_n = empty_figure default_msg.
Proof. reflexivity. Qed.

(** C3: when no row of the dataset has the given continent and year,
    each of the three bar builders returns the placeholder, and when no
    row has the given year the map builder returns it; the call returns
    normally, and the placeholder is a figure without a data series that
    bears one centred message. *)
Theorem empty_filter_gives_placeholder `{Sorter} g cont yr theme topn orient var yr_map :
  (mask_continent_year cont yr (df g) = [] ->
   update_bars cont yr theme topn orient g =
     (Ok (empty_figure default_msg, empty_figure default_msg, empty_figure default_msg), g)) /\
  (mask_year yr_map (df g) = [] ->
   update_map var yr_map theme g = (Ok (empty_figure default_msg), g)) /\
  is_placeholder (empty_figure default_msg).
Proof.
  split; [|split].
  - intros He. rewrite update_bars_run, He. by rewrite !make_bar_empty.
  - intros He. unfold update_map. by apply create_choropleth_map_empty.
  - split; [done|]. eexists. split; [done|]. by repeat split.
Qed.

Lemma empty_filter_gives_placeholder_witness :
  mask_continent_year "Europe" 1957 (df (module_globals sample_rows)) = [] /\
  mask_year 1962 (df (module_globals sample_rows)) = [] /\
  update_bars (H:=stable_sorter) "Europe" 1957 "dark" 15 "v" (module_globals sample_rows) =
    (Ok (empty_figure default_msg, empty_figure default_msg, empty_figure default_msg),
     module_globals sample_rows) /\
  update_map "Population" 1962 "dark" (module_globals sample_rows) =
    (Ok (empty_figure default_msg), module_globals sample_rows).
Proof.
  pose proof (empty_filter_gives_placeholder (H:=stable_sorter)
                (module_globals sample_rows) "Europe" 1957 "dark" 15 "v" "Population" 1962)
    as (Hbars & Hmap & _).
  assert (Hb : mask_continent_year "Europe" 1957 (df (module_globals sample_rows)) = [])
    by reflexivity.
  assert (Hm : mask_year 1962 (df (module_globals sample_rows)) = []) by reflexivity.
  split; [exact Hb|]. split; [exact Hm|].
  split; [exact (Hbars Hb)|exact (Hmap Hm)].
Defined.

(** ** Themes *)

(** C4: theme_settings is a total function with exactly two outputs:
    "dark" gives the dark bundle, and every other input, "light" and
    unknown strings alike, gives the light bundle; the two bundles are
    different, and equal inputs give equal outputs. *)
Theorem theme_settings_two_bundles :
  theme_settings "dark" = dark_bundle /\
  theme_settings "light" = light_bundle /\
  (forall theme, theme <> "dark" -> theme_settings theme = light_bundle) /\
  (forall theme, theme_settings theme = dark_bundle \/ theme_settings theme = light_bundle) /\
  dark_bundle <> light_bundle /\
  (forall t1 t2, t1 = t2 -> theme_settings t1 = theme_settings t2).
Proof.
  split; [done|]. split; [done|]. split; [|split; [|split]].
  - intros theme Hne. unfold theme_settings. by case_decide.
  - intros theme. unfold theme_settings. case_decide; [by left|by right].
  - discriminate.
  - by intros t1 t2 ->.
Qed.

Lemma theme_settings_two_bundles_witness :
  "solarized" <> "dark" /\ theme_settings "solarized" = light_bundle.
Proof.
  assert (Hne : "solarized" <> "dark") by discriminate.
  split; [exact Hne|].
  exact (proj1 (proj2 (proj2 theme_settings_two_bundles)) "solarized" Hne).
Defined.

(** ** The table *)

Lemma create_table_run data template :
  create_table template (module_globals data) =
  (Ok {| fig_plot :=
           GoTable table_headers "left" (map (fun c => map (cell c) data) df_columns) "left";
         fig_annotations := [];
         fig_layout :=
           {| layout_template := template; paper_bgcolor := "rgba(0,0,0,0)";
              layout_title := None; layout_height := 700;
              xaxis_visible := None; yaxis_visible := None;
              layout_margin := [("t", 0); ("l", 0); ("r", 0); ("b", 0)];
              legend_title := None; dragmode := None |};
         fig_textposition := None;
         fig_cliponaxis := None |},
   module_globals data).
Proof. reflexivity. Qed.

(** C5: for every theme the table builder succeeds and renders the whole
    dataset: the headers are the renamed column names in the dataset's
    column order, column k of the table holds the cells of column k of
    the dataset in the dataset's row order, so every column has as many
    cells as the dataset has rows. *)
Theorem table_shows_full_dataset data theme :
  exists fig,
    update_table theme (module_globals data) = (Ok fig, module_globals data) /\
    table_header fig = table_headers /\
    table_header fig =
      map (fun c => dict_get TABLE_COL_RENAME (col_name c) (col_name c)) df_columns /\
    table_cells fig = map (fun c => map (cell c) data) df_columns /\
    Forall (fun col => length col = length data) (table_cells fig).
Proof.
  unfold update_table. rewrite create_table_run. eexists. split; [reflexivity|].
  split; [done|]. split; [done|]. split; [done|].
  unfold table_cells; simpl. repeat constructor; apply length_map.
Qed.

(** ** The choropleth map *)

Lemma VAR_MAP_unknown var :
  var <> "Population" -> var <> "GDP per Capita" -> var <> "Life Expectancy" ->
  VAR_MAP !! var = None.
Proof.
  intros H1 H2 H3. unfold VAR_MAP. simpl.
  rewrite !lookup_insert_ne by done. apply lookup_empty.
Qed.

Lemma create_choropleth_map_run var yr template g :
  create_choropleth_map var yr template g =
  (Ok (if frame_empty (mask_year yr (df g)) then empty_figure default_msg
       else choropleth_figure var yr template (mask_year yr (df g))), g).
Proof.
  unfold create_choropleth_map, mbind, py_mbind, py_bind, py_global.
  by destruct (frame_empty (mask_year yr (df g))).
Qed.

(** C6: the map builder returns normally, keeps exactly the rows of
    the dataset that have the given year, in the dataset's order, and
    draws one region per kept row, keyed by the row's ISO alpha code and
    coloured by the column the label resolves to: the row's pop for
    "Population", its gdpPercap for "GDP per Capita", and its lifeExp for
    "Life Expectancy" and for every other label.  The number of regions
    is the number of rows with that year, and with at least one such row
    the plot is the choropleth over those rows with ISO-3 locations taken
    from iso_alpha. *)
Theorem choropleth_by_year_and_variable g var yr theme :
  exists fig,
    update_map var yr theme g = (Ok fig, g) /\
    length (regions fig) = length (List.filter (fun r => (year r =? yr)%Z) (df g)) /\
    (var = "Population" ->
     regions fig =
       map (fun r => (VStr (iso_alpha r), VInt (pop r)))
         (List.filter (fun r => (year r =? yr)%Z) (df g))) /\
    (var = "GDP per Capita" ->
     regions fig =
       map (fun r => (VStr (iso_alpha r), VFloat (gdpPercap r)))
         (List.filter (fun r => (year r =? yr)%Z) (df g))) /\
    (var <> "Population" -> var <> "GDP per Capita" ->
     regions fig =
       map (fun r => (VStr (iso_alpha r), VFloat (lifeExp r)))
         (List.filter (fun r => (year r =? yr)%Z) (df g))) /\
    (List.filter (fun r => (year r =? yr)%Z) (df g) <> [] ->
     exists color,
       fig_plot fig =
         PxChoropleth (List.filter (fun r => (year r =? yr)%Z) (df g))
           color c_iso_alpha "ISO-3" "RdYlBu" [c_country; color] /\
       (var = "Population" -> color = c_pop) /\
       (var = "GDP per Capita" -> color = c_gdpPercap) /\
       (var <> "Population" -> var <> "GDP per Capita" -> color = c_lifeExp)).
Proof.
  unfold update_map. rewrite create_choropleth_map_run. eexists. split; [reflexivity|].
  rewrite <- mask_year_filter.
  assert (Hfallback : var <> "Population" -> var <> "GDP per Capita" ->
                      dict_get VAR_MAP var m_lifeExp = m_lifeExp).
  { intros H1 H2. destruct (decide (var = "Life Expectancy")) as [->|H3]; [done|].
    unfold dict_get. by rewrite VAR_MAP_unknown. }
  destruct (mask_year yr (df g)) as [|r l] eqn:E; simpl.
  - by repeat split.
  - unfold regions; simpl. split; [by rewrite length_map|].
    split; [by intros ->|]. split; [by intros ->|].
    split; [intros H1 H2; by rewrite (Hfallback H1 H2)|].
    intros _. eexists. split; [reflexivity|].
    split; [by intros ->|]. split; [by intros ->|].
    intros H1 H2. by rewrite (Hfallback H1 H2).
Qed.

Lemma choropleth_by_year_and_variable_witness :
  "Fertility" <> "Population" /\ "Fertility" <> "GDP per Capita" /\
  List.filter (fun r => (year r =? 1952)%Z) (df (module_globals sample_rows)) <> [] /\
  exists fig,
    update_map "Fertility" 1952 "light" (module_globals sample_rows) =
      (Ok fig, module_globals sample_rows) /\
    regions fig =
      [(VStr "AFG", VFloat 28.801); (VStr "BHR", VFloat 50.939);
       (VStr "BGD", VFloat 37.484); (VStr "ALB", VFloat 55.23)] /\
    exists color,
      fig_plot fig =
        PxChoropleth (List.filter (fun r => (year r =? 1952)%Z)
                        (df (module_globals sample_rows)))
          color c_iso_alpha "ISO-3" "RdYlBu" [c_country; color] /\
      color = c_lifeExp.
Proof.
  assert (H1 : "Fertility" <> "Population") by discriminate.
  assert (H2 : "Fertility" <> "GDP per Capita") by discriminate.
  assert (H3 : List.filter (fun r => (year r =? 1952)%Z)
                 (df (module_globals sample_rows)) <> []) by discriminate.
  split; [exact H1|]. split; [exact H2|]. split; [exact H3|].
  pose proof (choropleth_by_year_and_variable (module_globals sample_rows)
                "Fertility" 1952 "light")
    as (fig & Hrun & _ & _ & _ & Hregions & Hplot).
  exists fig. split; [exact Hrun|]. split; [exact (Hregions H1 H2)|].
  destruct (Hplot H3) as (color & Hfig & _ & _ & Hcolor).
  exists color. split; [exact Hfig|exact (Hcolor H1 H2)].
Defined.

(** ** Ranked bars: style, and the dataset after the call *)

Lemma make_bar_style `{Sorter} theme filtered x_col y_col title orient top_n :
  bar_style theme filtered
    (make_bar filtered x_col y_col title (template (theme_settings theme)) orient top_n).
Proof. destruct filtered; by repeat split. Qed.

(** C7, amended: a ranked-bar figure built from at least one matching
    row carries the template of the supplied theme; the placeholder that
    is returned when no row matches carries the fixed template
    "plotly_white" whatever the theme; in both cases the paper background
    is the fixed transparent colour; and the call leaves the dataset, and
    every other global, as it was. *)
Theorem ranked_bars_style_and_dataset `{Sorter} g cont yr theme topn orient :
  exists f1 f2 f3,
    update_bars cont yr theme topn orient g = (Ok (f1, f2, f3), g) /\
    df (update_bars cont yr theme topn orient g).2 = df g /\
    Forall (bar_style theme (mask_continent_year cont yr (df g))) [f1; f2; f3].
Proof.
  rewrite update_bars_run. do 3 eexists. split; [reflexivity|]. split; [done|].
  do 3 (constructor; [apply make_bar_style|]). constructor.
Qed.

Lemma ranked_bars_style_and_dataset_witness :
  mask_continent_year "Asia" 1952 (df (module_globals sample_rows)) <> [] /\
  exists f1 f2 f3,
    update_bars (H:=stable_sorter) "Asia" 1952 "dark" 15 "h" (module_globals sample_rows) =
      (Ok (f1, f2, f3), module_globals sample_rows) /\
    layout_template (fig_layout f1) = "plotly_dark".
Proof.
  assert (Hne : mask_continent_year "Asia" 1952 (df (module_globals sample_rows)) <> [])
    by discriminate.
  split; [exact Hne|].
  pose proof (ranked_bars_style_and_dataset (H:=stable_sorter)
                (module_globals sample_rows) "Asia" 1952 "dark" 15 "h")
    as (f1 & f2 & f3 & Hrun & _ & Hstyle).
  exists f1, f2, f3. split; [exact Hrun|].
  apply Forall_cons_1 in Hstyle as [(_ & Hfull & _) _]. exact (Hfull Hne).
Defined.

(** With the dark theme and a continent and year no row has, the figure
    is the placeholder, whose template is "plotly_white" and not the
    theme's "plotly_dark". *)
Lemma placeholder_keeps_white_template :
  exists fig,
    (create_population_chart (H:=stable_sorter) "Europe" 1957
       (template (theme_settings "dark")) "v" 15 (module_globals sample_rows)).1 = Ok fig /\
    layout_template (fig_layout fig) = "plotly_white" /\
    layout_template (fig_layout fig) <> template (theme_settings "dark").
Proof. eexists. split; [reflexivity|]. split; [done|]. discriminate. Qed.

(** ** Switching the theme *)

Lemma same_data_plot a b : same_data a b -> fig_plot a = fig_plot b.
Proof. unfold same_data, without_template. by intros [=]. Qed.

Lemma same_data_shown a b :
  same_data a b ->
  displayed_rows a = displayed_rows b /\ categories a = categories b /\
  regions a = regions b /\ table_header a = table_header b /\
  table_cells a = table_cells b.
Proof.
  intros Hs. apply same_data_plot in Hs.
  unfold displayed_rows, categories, regions, table_header, table_cells.
  by rewrite Hs.
Qed.

Lemma make_bar_same_data `{Sorter} filtered x_col y_col title t1 t2 orient top_n :
  same_data (make_bar filtered x_col y_col title t1 orient top_n)
            (make_bar filtered x_col y_col title t2 orient top_n).
Proof. by destruct filtered. Qed.

(** C8: for fixed continent, year, top_n, orientation, map variable and
    map year, running the table, bar and map callbacks with the dark
    theme and then with the light theme returns pairs of figures that are
    equal in everything but the template: same plot (rows, categories,
    values, regions, cells), same annotations, same other layout
    fields. *)
Theorem theme_switch_keeps_data `{Sorter} data cont yr topn orient var yr_map :
  (exists td tl,
     dark_then_light update_table (module_globals data) =
       (Ok (td, tl), module_globals data) /\
     same_data td tl /\ fig_plot td = fig_plot tl) /\
  (exists d1 d2 d3 l1 l2 l3,
     dark_then_light (fun theme => update_bars cont yr theme topn orient)
       (module_globals data) =
       (Ok ((d1, d2, d3), (l1, l2, l3)), module_globals data) /\
     Forall2 same_data [d1; d2; d3] [l1; l2; l3] /\
     Forall2 (fun a b => fig_plot a = fig_plot b) [d1; d2; d3] [l1; l2; l3]) /\
  (exists md ml,
     dark_then_light (update_map var yr_map) (module_globals data) =
       (Ok (md, ml), module_globals data) /\
     same_data md ml /\ fig_plot md = fig_plot ml).
Proof.
  split; [|split].
  - unfold dark_then_light, mbind, py_mbind, py_bind, update_table.
    rewrite !create_table_run. do 2 eexists. split; [reflexivity|]. by split.
  - unfold dark_then_light, mbind, py_mbind, py_bind.
    rewrite !update_bars_run. do 6 eexists. split; [reflexivity|].
    split.
    + do 3 (constructor; [apply make_bar_same_data|]). constructor.
    + do 3 (constructor; [apply same_data_plot, make_bar_same_data|]). constructor.
  - unfold dark_then_light, mbind, py_mbind, py_bind, update_map.
    rewrite !create_choropleth_map_run. do 2 eexists. split; [reflexivity|].
    by destruct (frame_empty _).
Qed.

(** ** The derived index *)

Lemma isort_str_sorted l : Sorted (fun a b => String.leb a b = true) (sorted_str l).
Proof.
  apply isort_sorted; [done|].
  intros x y E. destruct (String.leb_total x y) as [Hxy|Hyx]; [congruence|done].
Qed.

Lemma isort_int_sorted l : Sorted Z.le (sorted_int l).
Proof. apply isort_sorted; intros x y E; lia. Qed.

Lemma sorted_str_perm l : sorted_str l ≡ₚ l.
Proof. apply isort_perm. Qed.

Lemma sorted_int_perm l : sorted_int l ≡ₚ l.
Proof. apply isort_perm. Qed.

(** With no rows the import-time code returns normally: the globals are
    built, and both selector lists are empty. *)
Lemma empty_dataset_builds_empty_index :
  startup [] =
    Ok {| df := []; table_df := rename_columns TABLE_COL_RENAME [];
          continents := []; years := [] |} /\
  forall e, startup [] <> Raise e.
Proof. split; [reflexivity|]. intros e. discriminate. Qed.

(** C9, amended: building the index never raises, for an empty dataset
    either (its lists are then empty); for every dataset, [continents]
    holds exactly the continent values of the dataset, each once, in
    ascending order of strings, and [years] holds exactly the year values,
    each once, in ascending numeric order. *)
Theorem derived_index_sorted_distinct data :
  exists g,
    startup data = Ok g /\
    df g = data /\
    (forall c, c ∈ continents g <-> exists r, r ∈ data /\ continent r = c) /\
    NoDup (continents g) /\
    Sorted (fun a b => String.leb a b = true) (continents g) /\
    (forall y, y ∈ years g <-> exists r, r ∈ data /\ year r = y) /\
    NoDup (years g) /\
    Sorted Z.le (years g).
Proof.
  eexists. split; [reflexivity|]. simpl. split; [done|].
  split; [|split; [|split; [|split; [|split]]]].
  - intros c. rewrite sorted_str_perm, unique_elem_of, list_elem_of_fmap.
    split; [intros (r & -> & Hr)|intros (r & Hr & <-)]; eauto.
  - rewrite sorted_str_perm. apply unique_NoDup.
  - apply isort_str_sorted.
  - intros y. rewrite sorted_int_perm, unique_elem_of, list_elem_of_fmap.
    split; [intros (r & -> & Hr)|intros (r & Hr & <-)]; eauto.
  - rewrite sorted_int_perm. apply unique_NoDup.
  - apply isort_int_sorted.
Qed.

(** ** Orientation *)

(** C10: for an orientation other than "h", whatever string it is,
    [make_bar] never builds horizontal bars: on a frame with rows it
    builds the bar plot with the category column on x and the metric on
    y and passes no orientation, which plotly draws as vertical bars (on
    a frame without rows it returns the placeholder, which has no bars);
    and the bar callback returns normally for every orientation. *)
Theorem make_bar_vertical_unless_h `{Sorter} filtered x_col y_col title template orient top_n :
  orient <> "h" ->
  plot_orientation (fig_plot (make_bar filtered x_col y_col title template orient top_n)) <>
    Some "h" /\
  (filtered <> [] ->
   fig_plot (make_bar filtered x_col y_col title template orient top_n) =
     PxBar (head top_n (sort_values_desc (metric_val y_col) filtered))
       x_col (metric_col y_col) x_col true None /\
   plot_orientation (fig_plot (make_bar filtered x_col y_col title template orient top_n)) =
     Some "v") /\
  forall g cont yr theme,
    exists figs, update_bars cont yr theme top_n orient g = (Ok figs, g).
Proof.
  intros Hor.
  assert (Hv : forall data,
    plot_orientation (PxBar data x_col (metric_col y_col) x_col true None) = Some "v").
  { intros data. simpl. destruct y_col; simpl; by rewrite andb_false_r. }
  split; [|split].
  - unfold make_bar. destruct filtered; [done|]. simpl. case_decide; [done|].
    by rewrite Hv.
  - intros Hne. unfold make_bar. destruct filtered; [done|]. simpl.
    case_decide; [done|]. split; [done|]. apply Hv.
  - intros g cont yr theme. rewrite update_bars_run. by eexists.
Qed.

Lemma make_bar_vertical_unless_h_witness :
  "Horizontal" <> "h" /\
  mask_continent_year "Asia" 1952 sample_rows <> [] /\
  plot_orientation
    (fig_plot (make_bar (H:=stable_sorter) (mask_continent_year "Asia" 1952 sample_rows)
                 c_country m_pop "Population for Asia in 1952" "plotly_white"
                 "Horizontal" 15)) = Some "v".
Proof.
  assert (Hor : "Horizontal" <> "h") by discriminate.
  assert (Hne : mask_continent_year "Asia" 1952 sample_rows <> []) by discriminate.
  split; [exact Hor|]. split; [exact Hne|].
  exact (proj2 (proj1 (proj2 (make_bar_vertical_unless_h (H:=stable_sorter)
           (mask_continent_year "Asia" 1952 sample_rows) c_country m_pop
           "Population for Asia in 1952" "plotly_white" "Horizontal" 15 Hor)) Hne)).
Defined.

(** ** Ranked bars: which rows make the cut *)

Global Instance desc_by_transitive {A} (key : A -> Q) : Transitive (desc_by key).
Proof. intros a b c Hab Hbc. unfold desc_by in *. by eapply Qle_trans. Qed.

(** X1: the bars are the top of the ranking: every row of the filtered
    frame that is left out of the figure has a metric no larger than
    that of every row shown, whatever top_n and the orientation are. *)
Theorem make_bar_shows_largest `{Sorter} filtered x_col y_col title template orient top_n a b :
  a ∈ displayed_rows (make_bar filtered x_col y_col title template orient top_n) ->
  b ∈ filtered ->
  b ∉ displayed_rows (make_bar filtered x_col y_col title template orient top_n) ->
  (metric_val y_col b <= metric_val y_col a)%Q.
Proof.
  rewrite make_bar_rows.
  destruct (head_take top_n (sort_values_desc (metric_val y_col) filtered)) as [k ->].
  intros Ha Hb Hnb.
  pose proof (sort_values_sorted (metric_val y_col) filtered) as Hs.
  apply Sorted_StronglySorted in Hs; [|apply _].
  rewrite <- (take_drop k (sort_values_desc (metric_val y_col) filtered)) in Hs.
  eapply (StronglySorted_app_1_elem_of _ _ _ a b) in Hs; [exact Hs|exact Ha|].
  rewrite <- (sort_values_perm (metric_val y_col)) in Hb.
  rewrite <- (take_drop k (sort_values_desc (metric_val y_col) filtered)) in Hb.
  apply elem_of_app in Hb as [Hb|Hb]; [by destruct Hnb|exact Hb].
Qed.

(** The population chart of Asia in 1952 over the sample, cut to two
    bars. *)
Definition top_two_by_pop : Figure :=
  @make_bar stable_sorter (mask_continent_year "Asia" 1952 sample_rows)
    c_country m_pop "Population for Asia in 1952" "plotly_white" "v" 2.

Lemma make_bar_shows_largest_witness :
  (afghanistan_1952 ∈ displayed_rows top_two_by_pop) /\
  (bahrain_1952 ∈ mask_continent_year "Asia" 1952 sample_rows) /\
  (bahrain_1952 ∉ displayed_rows top_two_by_pop) /\
  (metric_val m_pop bahrain_1952 <= metric_val m_pop afghanistan_1952)%Q.
Proof.
  assert (Ha : afghanistan_1952 ∈ displayed_rows top_two_by_pop)
    by (apply (bool_decide_unpack _); vm_compute; exact I).
  assert (Hb : bahrain_1952 ∈ mask_continent_year "Asia" 1952 sample_rows)
    by (apply (bool_decide_unpack _); vm_compute; exact I).
  assert (Hnb : bahrain_1952 ∉ displayed_rows top_two_by_pop)
    by (apply (bool_decide_unpack _); vm_compute; exact I).
  split; [exact Ha|]. split; [exact Hb|]. split; [exact Hnb|].
  exact (make_bar_shows_largest (H:=stable_sorter) _ _ _ _ _ _ _ _ _ Ha Hb Hnb).
Defined.

Lemma head_length_exact {A} n (l : list A) :
  0 <= n -> Z.of_nat (length (head n l)) = Z.min n (Z.of_nat (length l)).
Proof.
  intros Hn. unfold head. rewrite (proj2 (Z.leb_le 0 n) Hn), length_take. lia.
Qed.

(** X2: for top_n >= 0 each of the three ranked-bar figures shows
    exactly min(top_n, number of matching rows) rows, so the three charts
    of one callback always have the same number of bars. *)
Theorem ranked_bars_row_count `{Sorter} g cont yr theme topn orient :
  0 <= topn ->
  exists f1 f2 f3,
    update_bars cont yr theme topn orient g = (Ok (f1, f2, f3), g) /\
    Forall (fun fig =>
              Z.of_nat (length (displayed_rows fig)) =
              Z.min topn (Z.of_nat (length (mask_continent_year cont yr (df g)))))
      [f1; f2; f3].
Proof.
  intros Hn. rewrite update_bars_run. do 3 eexists. split; [reflexivity|].
  assert (Hcount : forall m title,
    Z.of_nat (length (displayed_rows
      (make_bar (mask_continent_year cont yr (df g)) c_country m title
         (template (theme_settings theme)) orient topn))) =
    Z.min topn (Z.of_nat (length (mask_continent_year cont yr (df g))))).
  { intros m title. rewrite make_bar_rows, head_length_exact by done.
    by rewrite sort_values_perm. }
  do 3 (constructor; [apply Hcount|]). constructor.
Qed.

Lemma ranked_bars_row_count_witness :
  0 <= 2 /\
  exists f1 f2 f3,
    update_bars (H:=stable_sorter) "Asia" 1952 "light" 2 "h" (module_globals sample_rows) =
      (Ok (f1, f2, f3), module_globals sample_rows) /\
    Forall (fun fig =>
              Z.of_nat (length (displayed_rows fig)) =
              Z.min 2 (Z.of_nat (length (mask_continent_year "Asia" 1952
                                           (df (module_globals sample_rows))))))
      [f1; f2; f3].
Proof.
  assert (Hn : 0 <= 2) by lia.
  split; [exact Hn|].
  exact (ranked_bars_row_count (H:=stable_sorter) (module_globals sample_rows)
           "Asia" 1952 "light" 2 "h" Hn).
Defined.

(** X3: when top_n is at least the number of rows of the filtered
    frame, nothing is cut: the figure shows every row of the frame, each
    as often as the frame holds it. *)
Theorem make_bar_shows_all_when_enough `{Sorter} filtered x_col y_col title template
    orient top_n :
  Z.of_nat (length filtered) <= top_n ->
  displayed_rows (make_bar filtered x_col y_col title template orient top_n) ≡ₚ filtered.
Proof.
  intros Hlen. rewrite make_bar_rows. unfold head.
  rewrite (proj2 (Z.leb_le 0 top_n)) by lia.
  rewrite take_ge; [apply sort_values_perm|].
  rewrite sort_values_perm. lia.
Qed.

Lemma make_bar_shows_all_when_enough_witness :
  Z.of_nat (length (mask_continent_year "Asia" 1952 sample_rows)) <= 5 /\
  displayed_rows
    (make_bar (H:=tie_reversing_sorter) (mask_continent_year "Asia" 1952 sample_rows)
       c_country m_lifeExp "Life Expectancy for Asia in 1952" "plotly_dark" "v" 5)
    ≡ₚ mask_continent_year "Asia" 1952 sample_rows.
Proof.
  assert (Hlen : Z.of_nat (length (mask_continent_year "Asia" 1952 sample_rows)) <= 5)
    by (vm_compute; discriminate).
  split; [exact Hlen|].
  exact (make_bar_shows_all_when_enough (H:=tie_reversing_sorter) _ c_country m_lifeExp
           "Life Expectancy for Asia in 1952" "plotly_dark" "v" 5 Hlen).
Defined.

Lemma remove_dups_NoDup `{EqDecision A} (l : list A) : NoDup l -> remove_dups l = l.
Proof.
  induction 1 as [|x l Hx Hnd IH]; simpl; [done|].
  destruct (decide_rel elem_of x l) as [Hin|_]; [done|]. by rewrite IH.
Qed.

Lemma unique_NoDup_id `{EqDecision A} (l : list A) : NoDup l -> unique l = l.
Proof.
  intros Hnd. unfold unique. rewrite remove_dups_NoDup.
  - apply reverse_involutive.
  - by rewrite reverse_Permutation.
Qed.

Global Instance VStr_inj : Inj (=) (=) VStr.
Proof. by intros s1 s2 [=]. Qed.

Lemma cell_country_fmap (l : list Row) :
  map (cell c_country) l = VStr <$> (country <$> l).
Proof. induction l as [|r l IH]; simpl; [done|]. by rewrite IH. Qed.

(** X4: when no country occurs twice among the matching rows, every
    bar of a ranked-bar figure is a category of its own: the categories
    are the countries of the rows shown, in the order shown, and there
    are as many categories as rows. *)
Theorem ranked_bar_one_category_per_row `{Sorter} filtered y_col title template orient top_n :
  NoDup (map country filtered) ->
  categories (make_bar filtered c_country y_col title template orient top_n) =
    map (fun r => VStr (country r))
      (displayed_rows (make_bar filtered c_country y_col title template orient top_n)) /\
  length (categories (make_bar filtered c_country y_col title template orient top_n)) =
    length (displayed_rows (make_bar filtered c_country y_col title template orient top_n)).
Proof.
  intros Hnd.
  assert (Hcat : categories (make_bar filtered c_country y_col title template orient top_n) =
    map (fun r => VStr (country r))
      (displayed_rows (make_bar filtered c_country y_col title template orient top_n))).
  { rewrite make_bar_categories. apply unique_NoDup_id.
    rewrite make_bar_rows.
    destruct (head_take top_n (sort_values_desc (metric_val y_col) filtered)) as [k ->].
    rewrite cell_country_fmap. apply (NoDup_fmap_2 _).
    rewrite fmap_take. eapply sublist_NoDup; [|apply sublist_take].
    by rewrite sort_values_perm. }
  split; [exact Hcat|]. by rewrite Hcat, length_map.
Qed.

Lemma ranked_bar_one_category_per_row_witness :
  NoDup (map country (mask_continent_year "Asia" 1952 sample_rows)) /\
  length (categories
            (make_bar (H:=stable_sorter) (mask_continent_year "Asia" 1952 sample_rows)
               c_country m_gdpPercap "GDP per Capita for Asia in 1952" "plotly_white" "v" 15)) =
  length (displayed_rows
            (make_bar (H:=stable_sorter) (mask_continent_year "Asia" 1952 sample_rows)
               c_country m_gdpPercap "GDP per Capita for Asia in 1952" "plotly_white" "v" 15)).
Proof.
  assert (Hnd : NoDup (map country (mask_continent_year "Asia" 1952 sample_rows)))
    by (apply (bool_decide_unpack _); vm_compute; exact I).
  split; [exact Hnd|].
  exact (proj2 (ranked_bar_one_category_per_row (H:=stable_sorter) _ m_gdpPercap
                  "GDP per Capita for Asia in 1952" "plotly_white" "v" 15 Hnd)).
Defined.

(** ** Ranked bars: orientation and the empty chart *)

(** X5: orientation "h" changes the axes only.  Against any other
    orientation the figure shows the same rows in the same order, the
    same categories and the same layout; on a frame with rows the plot
    has the metric on x, the category on y and orientation "h". *)
Theorem make_bar_horizontal_swaps_axes `{Sorter} filtered x_col y_col title template
    orient top_n :
  displayed_rows (make_bar filtered x_col y_col title template "h" top_n) =
    displayed_rows (make_bar filtered x_col y_col title template orient top_n) /\
  categories (make_bar filtered x_col y_col title template "h" top_n) =
    categories (make_bar filtered x_col y_col title template orient top_n) /\
  fig_layout (make_bar filtered x_col y_col title template "h" top_n) =
    fig_layout (make_bar filtered x_col y_col title template orient top_n) /\
  (filtered <> [] ->
   fig_plot (make_bar filtered x_col y_col title template "h" top_n) =
     PxBar (head top_n (sort_values_desc (metric_val y_col) filtered))
       (metric_col y_col) x_col x_col true (Some "h") /\
   plot_orientation (fig_plot (make_bar filtered x_col y_col title template "h" top_n)) =
     Some "h").
Proof.
  split; [by rewrite !make_bar_rows|].
  split; [by rewrite !make_bar_categories, !make_bar_rows|].
  split; [by destruct filtered|].
  intros Hne. by destruct filtered.
Qed.

Lemma make_bar_horizontal_swaps_axes_witness :
  mask_continent_year "Asia" 1952 sample_rows <> [] /\
  plot_orientation
    (fig_plot (make_bar (H:=stable_sorter) (mask_continent_year "Asia" 1952 sample_rows)
                 c_country m_pop "Population for Asia in 1952" "plotly_white" "h" 15)) =
    Some "h".
Proof.
  assert (Hne : mask_continent_year "Asia" 1952 sample_rows <> []) by discriminate.
  split; [exact Hne|].
  exact (proj2 (proj2 (proj2 (proj2 (make_bar_horizontal_swaps_axes (H:=stable_sorter)
           (mask_continent_year "Asia" 1952 sample_rows) c_country m_pop
           "Population for Asia in 1952" "plotly_white" "v" 15))) Hne)).
Defined.

(** X6: [make_bar] returns the placeholder exactly when the filtered
    frame has no rows.  In particular top_n = 0 on a frame with rows does
    not give the placeholder: it gives a bar plot over no rows, without
    the "No data" message. *)
Theorem make_bar_placeholder_iff_empty `{Sorter} filtered x_col y_col title template
    orient top_n :
  (make_bar filtered x_col y_col title template orient top_n = empty_figure default_msg <->
   filtered = []) /\
  (fig_plot (make_bar filtered x_col y_col title template orient top_n) = NoPlot <->
   filtered = []) /\
  (filtered <> [] ->
   displayed_rows (make_bar filtered x_col y_col title template orient 0) = [] /\
   fig_annotations (make_bar filtered x_col y_col title template orient 0) = [] /\
   fig_plot (make_bar filtered x_col y_col title template orient 0) <> NoPlot).
Proof.
  split; [|split].
  - split; [|by intros ->]. destruct filtered; [done|]. intros Heq.
    apply (f_equal fig_annotations) in Heq. discriminate.
  - split; [|by intros ->]. destruct filtered; [done|]. simpl. by case_decide.
  - intros Hne. split; [by rewrite make_bar_rows|].
    destruct filtered; [done|]. simpl. split; [done|]. by case_decide.
Qed.

Lemma make_bar_placeholder_iff_empty_witness :
  mask_continent_year "Asia" 1952 sample_rows <> [] /\
  displayed_rows
    (make_bar (H:=stable_sorter) (mask_continent_year "Asia" 1952 sample_rows)
       c_country m_pop "Population for Asia in 1952" "plotly_white" "v" 0) = [] /\
  fig_plot
    (make_bar (H:=stable_sorter) (mask_continent_year "Asia" 1952 sample_rows)
       c_country m_pop "Population for Asia in 1952" "plotly_white" "v" 0) <> NoPlot.
Proof.
  assert (Hne : mask_continent_year "Asia" 1952 sample_rows <> []) by discriminate.
  split; [exact Hne|].
  pose proof (proj2 (proj2 (make_bar_placeholder_iff_empty (H:=stable_sorter)
                (mask_continent_year "Asia" 1952 sample_rows) c_country m_pop
                "Population for Asia in 1952" "plotly_white" "v" 0)) Hne)
    as (Hrows & _ & Hplot).
  split; [exact Hrows|exact Hplot].
Defined.

(** ** The map: placeholder, style and fallback *)

(** X7: the map callback returns normally and leaves the globals as
    they were; its figure is the placeholder exactly when no row has the
    year; a map with rows carries the theme's template and has dragging
    switched off, the placeholder carries "plotly_white"; the paper
    background is transparent in both cases. *)
Theorem map_placeholder_and_style g var yr theme :
  exists fig,
    update_map var yr theme g = (Ok fig, g) /\
    (fig = empty_figure default_msg <-> mask_year yr (df g) = []) /\
    bar_style theme (mask_year yr (df g)) fig /\
    (mask_year yr (df g) <> [] -> dragmode (fig_layout fig) = Some false).
Proof.
  unfold update_map. rewrite create_choropleth_map_run. eexists. split; [reflexivity|].
  destruct (mask_year yr (df g)) as [|r l]; simpl.
  - by repeat split.
  - split; [split; [intros [=]|done]|]. by repeat split.
Qed.

Lemma map_placeholder_and_style_witness :
  mask_year 1952 (df (module_globals sample_rows)) <> [] /\
  exists fig,
    update_map "Population" 1952 "dark" (module_globals sample_rows) =
      (Ok fig, module_globals sample_rows) /\
    layout_template (fig_layout fig) = "plotly_dark" /\
    dragmode (fig_layout fig) = Some false.
Proof.
  assert (Hne : mask_year 1952 (df (module_globals sample_rows)) <> []) by discriminate.
  split; [exact Hne|].
  pose proof (map_placeholder_and_style (module_globals sample_rows) "Population" 1952 "dark")
    as (fig & Hrun & _ & (_ & Htemplate & _) & Hdrag).
  exists fig. split; [exact Hrun|]. split; [exact (Htemplate Hne)|exact (Hdrag Hne)].
Defined.

(** X8: a label that is not a key of VAR_MAP gives a map with the plot
    of "Life Expectancy" (same rows, same locations, same colour column,
    same regions), while the title of a map with rows still carries the
    label as it was given. *)
Theorem map_unknown_label_plots_life_expectancy g var yr theme :
  var <> "Population" -> var <> "GDP per Capita" ->
  exists fig fig_life,
    update_map var yr theme g = (Ok fig, g) /\
    update_map "Life Expectancy" yr theme g = (Ok fig_life, g) /\
    fig_plot fig = fig_plot fig_life /\
    regions fig = regions fig_life /\
    (mask_year yr (df g) <> [] ->
     layout_title (fig_layout fig) =
       Some (var +:+ " Choropleth Map [" +:+ pretty yr +:+ "]")).
Proof.
  intros H1 H2. unfold update_map. rewrite !create_choropleth_map_run.
  do 2 eexists. split; [reflexivity|]. split; [reflexivity|].
  assert (Hcol : dict_get VAR_MAP var m_lifeExp = m_lifeExp).
  { destruct (decide (var = "Life Expectancy")) as [->|H3]; [done|].
    unfold dict_get. by rewrite VAR_MAP_unknown. }
  destruct (mask_year yr (df g)) as [|r l]; simpl; [done|].
  unfold regions; simpl. rewrite Hcol. by repeat split.
Qed.

Lemma map_unknown_label_plots_life_expectancy_witness :
  "Fertility" <> "Population" /\ "Fertility" <> "GDP per Capita" /\
  exists fig fig_life,
    update_map "Fertility" 1952 "light" (module_globals sample_rows) =
      (Ok fig, module_globals sample_rows) /\
    update_map "Life Expectancy" 1952 "light" (module_globals sample_rows) =
      (Ok fig_life, module_globals sample_rows) /\
    fig_plot fig = fig_plot fig_life.
Proof.
  assert (H1 : "Fertility" <> "Population") by discriminate.
  assert (H2 : "Fertility" <> "GDP per Capita") by discriminate.
  split; [exact H1|]. split; [exact H2|].
  pose proof (map_unknown_label_plots_life_expectancy (module_globals sample_rows)
                "Fertility" 1952 "light" H1 H2)
    as (fig & fig_life & Hrun & Hlife & Hplot & _).
  exists fig, fig_life. split; [exact Hrun|]. split; [exact Hlife|exact Hplot].
Defined.

(** ** The selector lists against the filters *)

Lemma years_elem_of data y :
  y ∈ years (module_globals data) <-> exists r, r ∈ data /\ year r = y.
Proof.
  simpl. rewrite sorted_int_perm, unique_elem_of, list_elem_of_fmap.
  split; [intros (r & -> & Hr)|intros (r & Hr & <-)]; eauto.
Qed.

Lemma continents_elem_of data c :
  c ∈ continents (module_globals data) <-> exists r, r ∈ data /\ continent r = c.
Proof.
  simpl. rewrite sorted_str_perm, unique_elem_of, list_elem_of_fmap.
  split; [intros (r & -> & Hr)|intros (r & Hr & <-)]; eauto.
Qed.

Lemma nonempty_elem_of {A} (l : list A) : l <> [] <-> exists x, x ∈ l.
Proof.
  destruct l as [|x l].
  - split; [done|]. intros (x & Hx). by apply elem_of_nil in Hx.
  - split; [|done]. intros _. exists x. apply list_elem_of_here.
Qed.

(** X9: a year is in the [years] list built at import exactly when the
    map callback for that year returns a figure other than the
    placeholder: every year the selectors offer has a map, and no other
    year has one. *)
Theorem year_offered_iff_map_drawn data var yr theme :
  yr ∈ years (module_globals data) <->
  exists fig,
    update_map var yr theme (module_globals data) = (Ok fig, module_globals data) /\
    fig <> empty_figure default_msg.
Proof.
  rewrite years_elem_of.
  destruct (map_placeholder_and_style (module_globals data) var yr theme)
    as (fig & Hrun & Hiff & _).
  rewrite Hrun. simpl in Hiff. split.
  - intros (r & Hr & Hy). exists fig. split; [done|]. rewrite Hiff.
    apply nonempty_elem_of. exists r. by apply mask_year_elem_of.
  - intros (fig' & [= <-] & Hne). rewrite Hiff in Hne.
    apply nonempty_elem_of in Hne as (r & Hr). apply mask_year_elem_of in Hr.
    by exists r.
Qed.

(** X10: a continent is in the [continents] list exactly when some year
    of the [years] list gives it a ranked chart with rows. *)
Theorem continent_offered_iff_some_year_has_rows data cont :
  cont ∈ continents (module_globals data) <->
  exists yr, yr ∈ years (module_globals data) /\ mask_continent_year cont yr data <> [].
Proof.
  rewrite continents_elem_of. split.
  - intros (r & Hr & Hc). exists (year r). split.
    + apply years_elem_of. by exists r.
    + apply nonempty_elem_of. exists r. by apply mask_continent_year_elem_of.
  - intros (yr & _ & Hne). apply nonempty_elem_of in Hne as (r & Hr).
    apply mask_continent_year_elem_of in Hr as (Hr & Hc & _). by exists r.
Qed.

(** X11: the two dropdown lists built at import cover the dataset
    without repetition.  The year options carry the years of the dataset
    in ascending order, each once, labelled by its decimal numeral, and no
    two options share a label; the continent options carry the continents
    of the dataset, each once, with the name as label and value. *)
Theorem selector_options_cover_dataset data :
  map opt_value (year_options (module_globals data)) = years (module_globals data) /\
  map opt_label (year_options (module_globals data)) =
    map pretty (years (module_globals data)) /\
  NoDup (map opt_label (year_options (module_globals data))) /\
  Sorted Z.le (map opt_value (year_options (module_globals data))) /\
  (forall r, r ∈ data ->
     mkOption (pretty (year r)) (year r) ∈ year_options (module_globals data) /\
     mkOption (continent r) (continent r) ∈ continent_options (module_globals data)) /\
  map opt_value (continent_options (module_globals data)) = continents (module_globals data) /\
  map opt_label (continent_options (module_globals data)) = continents (module_globals data) /\
  NoDup (map opt_label (continent_options (module_globals data))).
Proof.
  assert (Hyv : map opt_value (year_options (module_globals data)) =
                years (module_globals data)).
  { unfold year_options. rewrite map_map. apply map_id. }
  assert (Hyl : map opt_label (year_options (module_globals data)) =
                map pretty (years (module_globals data))).
  { unfold year_options. by rewrite map_map. }
  assert (Hcv : map opt_value (continent_options (module_globals data)) =
                continents (module_globals data)).
  { unfold continent_options. rewrite map_map. apply map_id. }
  assert (Hcl : map opt_label (continent_options (module_globals data)) =
                continents (module_globals data)).
  { unfold continent_options. rewrite map_map. apply map_id. }
  assert (Hynd : NoDup (years (module_globals data))).
  { simpl. rewrite sorted_int_perm. apply unique_NoDup. }
  assert (Hcnd : NoDup (continents (module_globals data))).
  { simpl. rewrite sorted_str_perm. apply unique_NoDup. }
  split; [exact Hyv|]. split; [exact Hyl|].
  split; [rewrite Hyl; by apply (NoDup_fmap_2 _)|].
  split; [rewrite Hyv; apply isort_int_sorted|].
  split; [|split; [exact Hcv|split; [exact Hcl|by rewrite Hcl]]].
  intros r Hr. split.
  - unfold year_options. apply (list_elem_of_fmap_2 (fun y => mkOption (pretty y) y)).
    apply years_elem_of. by exists r.
  - unfold continent_options. apply (list_elem_of_fmap_2 (fun c => mkOption c c)).
    apply continents_elem_of. by exists r.
Qed.

Lemma selector_options_cover_dataset_witness :
  (afghanistan_1952 ∈ sample_rows) /\
  (mkOption "1952" 1952 ∈ year_options (module_globals sample_rows)) /\
  (mkOption "Asia" "Asia" ∈ continent_options (module_globals sample_rows)).
Proof.
  assert (Hr : afghanistan_1952 ∈ sample_rows) by apply list_elem_of_here.
  split; [exact Hr|].
  exact (proj1 (proj2 (proj2 (proj2 (proj2 (selector_options_cover_dataset sample_rows)))))
           afghanistan_1952 Hr).
Defined.

(** ** The renamed frame *)

Lemma table_df_columns data :
  f_columns (table_df (module_globals data)) =
  [("Country", c_country); ("Continent", c_continent); ("Year", c_year);
   ("Life Expectancy", c_lifeExp); ("Population", c_pop);
   ("GDP per Capita", c_gdpPercap); ("ISO Alpha Country Code", c_iso_alpha);
   ("ISO Numeric Code", c_iso_num)].
Proof. reflexivity. Qed.

(** X12: after the rename, [table_df] answers exactly the eight display
    headers.  A header gives the cells of the dataset column it renames,
    in row order; every other key raises KeyError, and so does each of
    the eight original column names. *)
Theorem table_df_keys data h :
  (h ∈ table_headers ->
   exists c,
     dict_get TABLE_COL_RENAME (col_name c) (col_name c) = h /\
     frame_getitem (table_df (module_globals data)) h = Ok (map (cell c) data)) /\
  (h ∉ table_headers ->
   frame_getitem (table_df (module_globals data)) h = Raise (KeyError h)) /\
  (forall c,
     frame_getitem (table_df (module_globals data)) (col_name c) =
       Raise (KeyError (col_name c))).
Proof.
  split; [|split].
  - unfold table_headers. rewrite !elem_of_cons, elem_of_nil.
    intros [->|[->|[->|[->|[->|[->|[->|[->|[]]]]]]]]];
      [exists c_country|exists c_continent|exists c_year|exists c_lifeExp
      |exists c_pop|exists c_gdpPercap|exists c_iso_alpha|exists c_iso_num];
      by split.
  - unfold table_headers. rewrite !not_elem_of_cons.
    intros (H1 & H2 & H3 & H4 & H5 & H6 & H7 & H8 & _).
    unfold frame_getitem. rewrite table_df_columns. simpl.
    by rewrite !decide_False by done.
  - by intros [].
Qed.

Lemma table_df_keys_witness :
  ("Population" ∈ table_headers) /\
  ("population" ∉ table_headers) /\
  frame_getitem (table_df (module_globals sample_rows)) "Population" =
    Ok (map (cell c_pop) sample_rows) /\
  frame_getitem (table_df (module_globals sample_rows)) "population" =
    Raise (KeyError "population").
Proof.
  assert (Hin : "Population" ∈ table_headers)
    by (apply (bool_decide_unpack _); vm_compute; exact I).
  assert (Hout : "population" ∉ table_headers)
    by (apply (bool_decide_unpack _); vm_compute; exact I).
  split; [exact Hin|]. split; [exact Hout|].
  split; [reflexivity|].
  exact (proj1 (proj2 (table_df_keys sample_rows "population")) Hout).
Defined.

(** ** Page styles *)

(** X13: [paint_theme] returns normally, changes no global, and hands
    the six cards one and the same style.  The page background, the card
    background and the card text colour are those of the theme's bundle,
    the card text colour is never the card background, and every theme
    other than "dark" paints exactly as "light" does. *)
Theorem paint_theme_styles theme g :
  exists page card,
    paint_theme theme g = (Ok (page, card, card, card, card, card, card), g) /\
    page !! "backgroundColor" = Some (page_bg (theme_settings theme)) /\
    page !! "minHeight" = Some "100vh" /\
    card !! "backgroundColor" = Some (card_bg (theme_settings theme)) /\
    card !! "color" = Some (text (theme_settings theme)) /\
    card !! "color" <> card !! "backgroundColor" /\
    (theme <> "dark" -> paint_theme theme g = paint_theme "light" g).
Proof.
  do 2 eexists. split; [reflexivity|].
  split; [done|]. split; [done|]. split; [done|]. split; [done|]. split.
  - change ((list_to_map [("backgroundColor", card_bg (theme_settings theme));
                          ("color", text (theme_settings theme))] : gmap string string)
              !! "color")
      with (Some (text (theme_settings theme))).
    change ((list_to_map [("backgroundColor", card_bg (theme_settings theme));
                          ("color", text (theme_settings theme))] : gmap string string)
              !! "backgroundColor")
      with (Some (card_bg (theme_settings theme))).
    unfold theme_settings. case_decide; discriminate.
  - intros Hne. unfold paint_theme, theme_settings. by rewrite decide_False.
Qed.

Lemma paint_theme_styles_witness :
  "solarized" <> "dark" /\
  paint_theme "solarized" (module_globals sample_rows) =
    paint_theme "light" (module_globals sample_rows).
Proof.
  assert (Hne : "solarized" <> "dark") by discriminate.
  split; [exact Hne|].
  destruct (paint_theme_styles "solarized" (module_globals sample_rows))
    as (page & card & _ & _ & _ & _ & _ & _ & Hlight).
  exact (Hlight Hne).
Defined.

(** ** The empty dataset *)

(** X15: on a dataset without rows the selectors are empty, the bar and
    map callbacks return the placeholder for every input, and the table
    callback does not: it returns a table with the eight headers over
    eight empty columns. *)
Theorem empty_dataset_views `{Sorter} cont yr theme topn orient var yr_map :
  continent_options (module_globals []) = [] /\
  year_options (module_globals []) = [] /\
  update_bars cont yr theme topn orient (module_globals []) =
    (Ok (empty_figure default_msg, empty_figure default_msg, empty_figure default_msg),
     module_globals []) /\
  update_map var yr_map theme (module_globals []) =
    (Ok (empty_figure default_msg), module_globals []) /\
  exists fig,
    update_table theme (module_globals []) = (Ok fig, module_globals []) /\
    table_header fig = table_headers /\
    table_cells fig = replicate 8 [] /\
    fig <> empty_figure default_msg.
Proof.
  split; [done|]. split; [done|]. split; [done|]. split; [done|].
  unfold update_table. rewrite create_table_run. eexists. split; [reflexivity|].
  split; [done|]. split; [done|]. discriminate.
Qed.

(** ** Moving the top-n control *)

(** X16: raising top_n only appends bars.  For 0 <= n <= m the rows of
    the figure built with top_n = n are the first rows, in the same
    order, of the figure built with top_n = m. *)
Theorem make_bar_top_n_monotone `{Sorter} filtered x_col y_col title template orient n m :
  0 <= n -> n <= m ->
  displayed_rows (make_bar filtered x_col y_col title template orient n) =
    take (Z.to_nat n) (displayed_rows (make_bar filtered x_col y_col title template orient m)).
Proof.
  intros Hn Hm. rewrite !make_bar_rows. unfold head.
  rewrite (proj2 (Z.leb_le 0 n)), (proj2 (Z.leb_le 0 m)) by lia.
  rewrite take_take. f_equal. lia.
Qed.

Lemma make_bar_top_n_monotone_witness :
  0 <= 1 /\ 1 <= 2 /\
  displayed_rows
    (make_bar (H:=stable_sorter) (mask_continent_year "Asia" 1952 sample_rows)
       c_country m_pop "Population for Asia in 1952" "plotly_white" "v" 1) =
  take (Z.to_nat 1)
    (displayed_rows
       (make_bar (H:=stable_sorter) (mask_continent_year "Asia" 1952 sample_rows)
          c_country m_pop "Population for Asia in 1952" "plotly_white" "v" 2)).
Proof.
  assert (Hn : 0 <= 1) by lia.
  assert (Hm : 1 <= 2) by lia.
  split; [exact Hn|]. split; [exact Hm|].
  exact (make_bar_top_n_monotone (H:=stable_sorter)
           (mask_continent_year "Asia" 1952 sample_rows) c_country m_pop
           "Population for Asia in 1952" "plotly_white" "v" 1 2 Hn Hm).
Defined.

(** X17: a negative top_n is not rejected: the figure then leaves out
    the -top_n lowest-ranked rows of the filtered frame and shows the
    rest, max(0, rows + top_n) of them. *)
Theorem make_bar_negative_top_n `{Sorter} filtered x_col y_col title template orient top_n :
  top_n < 0 ->
  Z.of_nat (length (displayed_rows (make_bar filtered x_col y_col title template orient top_n))) =
    Z.max 0 (Z.of_nat (length filtered) + top_n) /\
  displayed_rows (make_bar filtered x_col y_col title template orient top_n) =
    take (length filtered - Z.to_nat (- top_n))
      (sort_values_desc (metric_val y_col) filtered).
Proof.
  intros Hn.
  assert (Hlen : length (sort_values_desc (metric_val y_col) filtered) = length filtered)
    by (by rewrite sort_values_perm).
  rewrite make_bar_rows. unfold head.
  rewrite (proj2 (Z.leb_gt 0 top_n)) by lia. rewrite length_take, Hlen.
  split; [lia|done].
Qed.

Lemma make_bar_negative_top_n_witness :
  -2 < 0 /\
  Z.of_nat (length (displayed_rows
    (make_bar (H:=stable_sorter) (mask_continent_year "Asia" 1952 sample_rows)
       c_country m_pop "Population for Asia in 1952" "plotly_white" "v" (-2)))) =
  Z.max 0 (Z.of_nat (length (mask_continent_year "Asia" 1952 sample_rows)) + -2).
Proof.
  assert (Hn : -2 < 0) by lia.
  split; [exact Hn|].
  exact (proj1 (make_bar_negative_top_n (H:=stable_sorter)
           (mask_continent_year "Asia" 1952 sample_rows) c_country m_pop
           "Population for Asia in 1952" "plotly_white" "v" (-2) Hn)).
Defined.
